(** * terraform-provider-nango: the integration resource, the integrations
      data source and the authenticated transport

    A shallow embedding of [internal/provider/integration_resource.go]
    (resource [nango_integration]), of the data source [nango_integrations]
    and of [myTransport.RoundTrip] from the provider file, followed by the
    properties of the specification that can be settled on them.

    Conventions.
    - Go strings are [string]; slices are [list] (a nil slice is [[]]);
      a Go pointer that may be nil is an [option].
    - [http.Header] ([map[string][]string]) is a [gmap string (list string)].
    - A JSON text is kept as its tree ([JSON]); an HTTP response body that is
      not a JSON text is [None].
    - The remote API, as seen through the retrying HTTP client, is a
      transition function [serve] on an arbitrary server state; every call of
      [client.Do] is recorded in [sent]. The retrying client itself, over
      the network, is [retryablehttp_Do].
    - Debug output ([fmt.Printf], [log.Printf]) has no effect on state,
      requests or diagnostics and is left out. *)

From Stdlib Require Import Ascii String ZArith.
From stdpp Require Import base strings list option gmap fin_maps pretty.

Open Scope string_scope.
Open Scope list_scope.

(* ===================================================================== *)
(** * Terraform framework values *)
(* ===================================================================== *)

Module types.

(** [types.String]: null, unknown or a known string. *)
Inductive String :=
| StringNull
| StringUnknown
| StringValue (s : string).

(** [ValueString]: the known value, [""] for null and unknown. *)
Definition ValueString (v : String) : string :=
  match v with
  | StringValue s => s
  | _ => ""
  end.

(** [ValueStringPointer]: nil for null, a pointer to [""] for unknown. *)
Definition ValueStringPointer (v : String) : option string :=
  match v with
  | StringNull => None
  | StringUnknown => Some ""
  | StringValue s => Some s
  end.

(** [types.List] with string elements. *)
Inductive List :=
| ListNull
| ListUnknown
| ListValue (elems : list String).

(** One element converted to a Go [string]: null and unknown elements are
    not representable (the call is made with [allowUnhandled = false]). *)
Definition known (v : String) : option string :=
  match v with
  | StringValue s => Some s
  | _ => None
  end.

(** [l.ElementsAs(ctx, &target, false)] for [target : []string]: returns
    the new content of [target] and whether the conversion succeeded.
    A null list gives the nil slice; an unknown list, or a list with a
    null or unknown element, is an error and leaves [target] as it was. *)
Definition ElementsAs (l : List) (target : list string) : list string * bool :=
  match l with
  | ListNull => ([], true)
  | ListUnknown => (target, false)
  | ListValue elems =>
      match mapM known elems with
      | Some ss => (ss, true)
      | None => (target, false)
      end
  end.

End types.

(** [strings.Join(elems, sep)]. *)
Fixpoint strings_Join (elems : list string) (sep : string) : string :=
  match elems with
  | [] => ""
  | [x] => x
  | x :: rest => x +:+ sep +:+ strings_Join rest sep
  end.

(* ===================================================================== *)
(** * Diagnostics *)
(* ===================================================================== *)

Inductive Severity := SeverityError | SeverityWarning.

Record Diagnostic := {
  severity : Severity;
  Summary : string;
  Detail : string
}.

#[global] Instance Severity_eq_dec : EqDecision Severity.
Proof. solve_decision. Defined.

#[global] Instance Diagnostic_eq_dec : EqDecision Diagnostic.
Proof. solve_decision. Defined.

Abbreviation diag_Diagnostics := (list Diagnostic).

Definition is_error (d : Diagnostic) : bool :=
  match severity d with
  | SeverityError => true
  | SeverityWarning => false
  end.

(** [diags.HasError()]. *)
Definition HasError (diags : diag_Diagnostics) : bool := existsb is_error diags.

(** [diags.Append(in...)]: a diagnostic already present is not added again. *)
Definition Append (diags : diag_Diagnostics) (new : diag_Diagnostics) : diag_Diagnostics :=
  fold_left (fun acc d => if decide (d ∈ acc) then acc else acc ++ [d]) new diags.

(** [diags.AddError(summary, detail)]. *)
Definition AddError (diags : diag_Diagnostics) (summary detail : string) : diag_Diagnostics :=
  Append diags [ {| severity := SeverityError; Summary := summary; Detail := detail |} ].

(* ===================================================================== *)
(** * JSON *)
(* ===================================================================== *)

(** A JSON text as its tree. An object keeps its members in order, with
    duplicates, as the decoder meets them. Numbers are integers here: no
    field of this provider is numeric. *)
#[warnings="-register-all"]
Inductive JSON :=
| JNull
| JBool (b : bool)
| JNumber (n : Z)
| JString (s : string)
| JArray (items : list JSON)
| JObject (members : list (string * JSON)).

(** The members of an object with the given name. *)
Definition members_named (name : string) (j : JSON) : list JSON :=
  match j with
  | JObject ms => (filter (fun kv => kv.1 = name) ms).*2
  | _ => []
  end.

(** An object without the members of the given name. *)
Definition without_member (name : string) (j : JSON) : JSON :=
  match j with
  | JObject ms => JObject (filter (fun kv => kv.1 ≠ name) ms)
  | _ => j
  end.

(* ===================================================================== *)
(** * HTTP requests and responses *)
(* ===================================================================== *)

(** [h.Add(key, value)]: appends to the values of [key]. *)
Definition Header_Add (h : gmap string (list string)) (key value : string)
  : gmap string (list string) :=
  <[key := default [] (h !! key) ++ [value]]> h.

(** [h.Set(key, value)]: replaces the values of [key] by the single value. *)
Definition Header_Set (h : gmap string (list string)) (key value : string)
  : gmap string (list string) :=
  <[key := [value]]> h.

(** [h.Get(key)]: the first value of [key], [""] when there is none. *)
Definition Header_Get (h : gmap string (list string)) (key : string) : string :=
  match h !! key with
  | Some (v :: _) => v
  | _ => ""
  end.

(** [h.Values(key)]: all the values of [key]. *)
Definition Header_Values (h : gmap string (list string)) (key : string) : list string :=
  default [] (h !! key).

Record Request := {
  Method : string;
  URL : string;
  Header : gmap string (list string);
  ReqBody : option JSON
}.

Record Response := {
  StatusCode : Z;
  Body : option JSON
}.

(* ===================================================================== *)
(** * The models of the provider *)
(* ===================================================================== *)

(** [integrationCredentialsRequestModel]: the credentials block on the wire. *)
Module integrationCredentialsRequestModel.
Record t := {
  ClientId : string;      (* json:"client_id" *)
  ClientSecret : string;  (* json:"client_secret" *)
  Type_ : string;         (* json:"type" *)
  Scopes : string         (* json:"scopes" *)
}.
End integrationCredentialsRequestModel.

(** [integrationRequestModel]: the body of the create and update requests. *)
Module integrationRequestModel.
Record t := {
  UniqueKey : option string;      (* *string, json:"unique_key,omitempty" *)
  DisplayName : string;           (* json:"display_name" *)
  NangoProvider : option string;  (* *string, json:"provider,omitempty" *)
  Credentials : integrationCredentialsRequestModel.t  (* json:"credentials" *)
}.
End integrationRequestModel.

(** [nangoIntegrationModel]: one integration as the API returns it. *)
Module nangoIntegrationModel.
Record t := {
  UniqueKey : string;      (* json:"unique_key" *)
  DisplayName : string;    (* json:"display_name" *)
  NangoProvider : string;  (* json:"provider" *)
  UpdatedAt : string       (* json:"updated_at" *)
}.
(** The zero value of the struct. *)
Definition zero : t :=
  {| UniqueKey := ""; DisplayName := ""; NangoProvider := ""; UpdatedAt := "" |}.
End nangoIntegrationModel.

(** [nangoIntegrationResponse]: the envelope of the list endpoint. *)
Module nangoIntegrationResponse.
Record t := { Data : list nangoIntegrationModel.t (* json:"data" *) }.
Definition zero : t := {| Data := [] |}.
End nangoIntegrationResponse.

(** [nanogoIntegrationResponse2]: the envelope of the single-entity endpoint. *)
Module nanogoIntegrationResponse2.
Record t := { Data : nangoIntegrationModel.t (* json:"data" *) }.
Definition zero : t := {| Data := nangoIntegrationModel.zero |}.
End nanogoIntegrationResponse2.

(** [integrationCredentialModel]: the credentials block of the Terraform
    state and plan. *)
Module integrationCredentialModel.
Record t := {
  ClientId : types.String;
  ClientSecret : types.String;
  Type_ : types.String;
  Scopes : types.List
}.
End integrationCredentialModel.

(** [integrationModel]: one integration in the Terraform state and plan. *)
Module integrationModel.
Record t := {
  UniqueKey : types.String;
  DisplayName : types.String;
  NangoProvider : types.String;
  UpdatedAt : types.String;
  Credentials : option integrationCredentialModel.t (* *integrationCredentialModel *)
}.
End integrationModel.

(** [integrationDataSourceModel]: the state of the data source. *)
Module integrationDataSourceModel.
Record t := { Integrations : list integrationModel.t }.
End integrationDataSourceModel.

(* ===================================================================== *)
(** * encoding/json on these models *)
(* ===================================================================== *)

(** A [*string] field tagged [omitempty]: left out when the pointer is nil. *)
Definition omitempty (name : string) (p : option string) : list (string * JSON) :=
  match p with
  | None => []
  | Some s => [(name, JString s)]
  end.

Definition marshal_credentials (c : integrationCredentialsRequestModel.t) : JSON :=
  JObject [ ("client_id", JString (integrationCredentialsRequestModel.ClientId c));
            ("client_secret", JString (integrationCredentialsRequestModel.ClientSecret c));
            ("type", JString (integrationCredentialsRequestModel.Type_ c));
            ("scopes", JString (integrationCredentialsRequestModel.Scopes c)) ].

(** [json.Marshal(request)] for an [integrationRequestModel]: the fields in
    the order of the struct. It has no error case for a struct of strings;
    the result type keeps the shape of the Go call. *)
Definition json_Marshal (r : integrationRequestModel.t) : string + JSON :=
  inr (JObject
         (omitempty "unique_key" (integrationRequestModel.UniqueKey r)
          ++ [("display_name", JString (integrationRequestModel.DisplayName r))]
          ++ omitempty "provider" (integrationRequestModel.NangoProvider r)
          ++ [("credentials", marshal_credentials (integrationRequestModel.Credentials r))])).

(** Case folding of a member name: the decoder matches the names of an
    object with the field tags without regard to case. ASCII letters fold
    byte by byte; the only other code points that fold to an ASCII letter
    are U+212A (Kelvin sign, bytes 226 132 170), which folds to [k], and
    U+017F (long s, bytes 197 191), which folds to [s]. *)
Definition fold_ascii (c : ascii) : ascii :=
  let n := nat_of_ascii c in
  if (65 <=? n)%nat && (n <=? 90)%nat then ascii_of_nat (n + 32) else c.

Fixpoint foldName (s : string) : string :=
  match s with
  | EmptyString => EmptyString
  | String "226"%char (String "132"%char (String "170"%char rest)) =>
      String "k"%char (foldName rest)
  | String "197"%char (String "191"%char rest) =>
      String "s"%char (foldName rest)
  | String c rest => String (fold_ascii c) (foldName rest)
  end.

(** The first error met is the one the decoder returns. *)
Definition first_error (e : option string) (msg : string) : option string :=
  match e with
  | Some _ => e
  | None => Some msg
  end.

(** A JSON value decoded into a Go [string] field: a string is stored, null
    leaves the field as it is, anything else is a type error (and decoding
    goes on). *)
Definition decode_string (v : JSON) (old : string) (e : option string)
  : string * option string :=
  match v with
  | JString s => (s, e)
  | JNull => (old, e)
  | _ => (old, first_error e "json: cannot unmarshal value into Go struct field of type string")
  end.

(** One member of an object decoded into a [nangoIntegrationModel]; members
    whose name matches no field are skipped. *)
Definition decode_model_member (acc : nangoIntegrationModel.t * option string)
    (kv : string * JSON) : nangoIntegrationModel.t * option string :=
  let '(m, e) := acc in
  let k := foldName kv.1 in
  if decide (k = "unique_key") then
    let '(s, e') := decode_string kv.2 (nangoIntegrationModel.UniqueKey m) e in
    ({| nangoIntegrationModel.UniqueKey := s;
        nangoIntegrationModel.DisplayName := nangoIntegrationModel.DisplayName m;
        nangoIntegrationModel.NangoProvider := nangoIntegrationModel.NangoProvider m;
        nangoIntegrationModel.UpdatedAt := nangoIntegrationModel.UpdatedAt m |}, e')
  else if decide (k = "display_name") then
    let '(s, e') := decode_string kv.2 (nangoIntegrationModel.DisplayName m) e in
    ({| nangoIntegrationModel.UniqueKey := nangoIntegrationModel.UniqueKey m;
        nangoIntegrationModel.DisplayName := s;
        nangoIntegrationModel.NangoProvider := nangoIntegrationModel.NangoProvider m;
        nangoIntegrationModel.UpdatedAt := nangoIntegrationModel.UpdatedAt m |}, e')
  else if decide (k = "provider") then
    let '(s, e') := decode_string kv.2 (nangoIntegrationModel.NangoProvider m) e in
    ({| nangoIntegrationModel.UniqueKey := nangoIntegrationModel.UniqueKey m;
        nangoIntegrationModel.DisplayName := nangoIntegrationModel.DisplayName m;
        nangoIntegrationModel.NangoProvider := s;
        nangoIntegrationModel.UpdatedAt := nangoIntegrationModel.UpdatedAt m |}, e')
  else if decide (k = "updated_at") then
    let '(s, e') := decode_string kv.2 (nangoIntegrationModel.UpdatedAt m) e in
    ({| nangoIntegrationModel.UniqueKey := nangoIntegrationModel.UniqueKey m;
        nangoIntegrationModel.DisplayName := nangoIntegrationModel.DisplayName m;
        nangoIntegrationModel.NangoProvider := nangoIntegrationModel.NangoProvider m;
        nangoIntegrationModel.UpdatedAt := s |}, e')
  else (m, e).

(** A JSON value decoded into a [nangoIntegrationModel] that holds [m]:
    an object member by member, null is a no-op, anything else is a type
    error. *)
Definition decode_model_value (v : JSON) (acc : nangoIntegrationModel.t * option string)
  : nangoIntegrationModel.t * option string :=
  match v with
  | JObject ms => fold_left decode_model_member ms acc
  | JNull => acc
  | _ => (acc.1, first_error acc.2 "json: cannot unmarshal value into Go value of type provider.nangoIntegrationModel")
  end.

(** A JSON value decoded into a [[]nangoIntegrationModel] that holds
    [acc.1]: element [i] of an array is decoded into the element the slice
    already has at [i] (after an earlier [data] member of the same object),
    into a zero element when it has none, and the slice ends with the length
    of the array; null gives the nil slice. (What the backing array may
    still hold beyond the length of the slice is not followed.) *)
Definition decode_models_value (v : JSON)
    (acc : list nangoIntegrationModel.t * option string)
  : list nangoIntegrationModel.t * option string :=
  match v with
  | JArray items =>
      fold_left
        (fun a item =>
           let start := default nangoIntegrationModel.zero (acc.1 !! length a.1) in
           let '(m, e) := decode_model_value item (start, a.2) in
           (a.1 ++ [m], e))
        items ([], acc.2)
  | JNull => ([], acc.2)
  | _ => (acc.1, first_error acc.2 "json: cannot unmarshal value into Go struct field nangoIntegrationResponse.data of type []provider.nangoIntegrationModel")
  end.

(** The outcome of [Decode]: the error when there is one, else the value. *)
Definition decoded {A} (r : A * option string) : string + A :=
  match r.2 with
  | Some e => inl e
  | None => inr r.1
  end.

Definition not_json : string := "invalid character looking for beginning of value".

(** [json.NewDecoder(body).Decode(&v)] for [v : nangoIntegrationModel]
    (zero before the call). *)
Definition Decode_nangoIntegrationModel (body : option JSON)
  : string + nangoIntegrationModel.t :=
  match body with
  | None => inl not_json
  | Some v => decoded (decode_model_value v (nangoIntegrationModel.zero, None))
  end.

(** [Decode] for [v : nanogoIntegrationResponse2]. *)
Definition Decode_nanogoIntegrationResponse2 (body : option JSON)
  : string + nanogoIntegrationResponse2.t :=
  match body with
  | None => inl not_json
  | Some (JObject ms) =>
      decoded
        (fold_left
           (fun acc kv =>
              if decide (foldName kv.1 = "data") then
                let '(m, e) := decode_model_value kv.2 (nanogoIntegrationResponse2.Data acc.1, acc.2) in
                ({| nanogoIntegrationResponse2.Data := m |}, e)
              else acc)
           ms (nanogoIntegrationResponse2.zero, None))
  | Some JNull => inr nanogoIntegrationResponse2.zero
  | Some _ => inl "json: cannot unmarshal value into Go value of type provider.nanogoIntegrationResponse2"
  end.

(** [Decode] for [v : nangoIntegrationResponse]. *)
Definition Decode_nangoIntegrationResponse (body : option JSON)
  : string + nangoIntegrationResponse.t :=
  match body with
  | None => inl not_json
  | Some (JObject ms) =>
      decoded
        (fold_left
           (fun acc kv =>
              if decide (foldName kv.1 = "data") then
                let '(l, e) := decode_models_value kv.2 (nangoIntegrationResponse.Data acc.1, acc.2) in
                ({| nangoIntegrationResponse.Data := l |}, e)
              else acc)
           ms (nangoIntegrationResponse.zero, None))
  | Some JNull => inr nangoIntegrationResponse.zero
  | Some _ => inl "json: cannot unmarshal value into Go value of type provider.nangoIntegrationResponse"
  end.

(* ===================================================================== *)
(** * The request models built from a plan *)
(* ===================================================================== *)

(** The scopes of the plan as the comma-delimited string of the wire
    ([Create] and [Update] share these three lines):
    [var scopes []string; plan.Credentials.Scopes.ElementsAs(ctx, &scopes, false);
     scopesString := strings.Join(scopes, ",")]. The diagnostics of
    [ElementsAs] are dropped by the source. *)
Definition scopes_string (l : types.List) : string :=
  let scopes : list string := [] in
  let scopes := (types.ElementsAs l scopes).1 in
  strings_Join scopes ",".

(** The credentials block of both request literals. *)
Definition request_credentials (credentials : integrationCredentialModel.t)
    (scopesString : string) : integrationCredentialsRequestModel.t :=
  {| integrationCredentialsRequestModel.ClientId :=
       types.ValueString (integrationCredentialModel.ClientId credentials);
     integrationCredentialsRequestModel.ClientSecret :=
       types.ValueString (integrationCredentialModel.ClientSecret credentials);
     integrationCredentialsRequestModel.Type_ :=
       types.ValueString (integrationCredentialModel.Type_ credentials);
     integrationCredentialsRequestModel.Scopes := scopesString |}.

(** The literal [request := integrationRequestModel{...}] of [Create]. *)
Definition Create_request (plan : integrationModel.t)
    (credentials : integrationCredentialModel.t) (scopesString : string)
  : integrationRequestModel.t :=
  {| integrationRequestModel.UniqueKey :=
       types.ValueStringPointer (integrationModel.UniqueKey plan);
     integrationRequestModel.DisplayName :=
       types.ValueString (integrationModel.DisplayName plan);
     integrationRequestModel.NangoProvider :=
       types.ValueStringPointer (integrationModel.NangoProvider plan);
     integrationRequestModel.Credentials := request_credentials credentials scopesString |}.

(** The literal [request := integrationRequestModel{...}] of [Update]:
    [NangoProvider] is not set and stays the nil pointer. *)
Definition Update_request (plan : integrationModel.t)
    (credentials : integrationCredentialModel.t) (scopesString : string)
  : integrationRequestModel.t :=
  {| integrationRequestModel.UniqueKey :=
       types.ValueStringPointer (integrationModel.UniqueKey plan);
     integrationRequestModel.DisplayName :=
       types.ValueString (integrationModel.DisplayName plan);
     integrationRequestModel.NangoProvider := None;
     integrationRequestModel.Credentials := request_credentials credentials scopesString |}.

(* ===================================================================== *)
(** * The world of one invocation *)
(* ===================================================================== *)

(** The state of the remote API, the requests handed to the HTTP client so
    far, and the wall clock as [time.Now().Format(time.RFC3339)] prints it. *)
Record World (S : Type) := {
  remote : S;
  sent : list Request;
  now : string
}.
Arguments remote {S} _.
Arguments sent {S} _.
Arguments now {S} _.

(** The outcome of a computation: a value and the world after it, or a Go
    panic (a nil pointer dereference). *)
Inductive Result (S A : Type) :=
| Ok (a : A) (w : World S)
| Panic.
Arguments Ok {S A} _ _.
Arguments Panic {S A}.

Definition M (S A : Type) : Type := World S -> Result S A.

Definition ret {S A} (a : A) : M S A := fun w => Ok a w.

Definition bind {S A B} (c : M S A) (k : A -> M S B) : M S B :=
  fun w =>
    match c w with
    | Ok a w' => k a w'
    | Panic => Panic
    end.

Declare Scope go_scope.
Delimit Scope go_scope with go.
Notation "x <- c ;; k" := (bind c (fun x => k))
  (at level 100, c at next level, right associativity) : go_scope.

(** Dereference of a pointer: nil panics. *)
Definition deref {S A} (p : option A) : M S A :=
  match p with
  | Some a => ret a
  | None => fun _ => Panic
  end.

(** [time.Now().Format(time.RFC3339)]. *)
Definition time_Now {S} : M S string := fun w => Ok (now w) w.

(** What the Terraform framework hands to and takes from an operation. *)
Module tfsdk.
(** A plan or state of the request: what [Get(ctx, &v)] returns and
    stores in [v]. *)
Record Data (A : Type) := { Get : diag_Diagnostics * A }.
Arguments Get {A} _.

(** The response of an operation: the state it sets and its diagnostics. *)
Record Resp (A : Type) := { State : option A; Diagnostics : diag_Diagnostics }.
Arguments State {A} _.
Arguments Diagnostics {A} _.

(** [resp.Diagnostics.Append(diags...)]. *)
Definition Diagnostics_Append {A} (resp : Resp A) (diags : diag_Diagnostics) : Resp A :=
  {| State := State resp; Diagnostics := Append (Diagnostics resp) diags |}.

(** [resp.Diagnostics.AddError(summary, detail)]. *)
Definition Diagnostics_AddError {A} (resp : Resp A) (summary detail : string) : Resp A :=
  {| State := State resp; Diagnostics := AddError (Diagnostics resp) summary detail |}.

(** [resp.State.Set(ctx, v)]: stores [v]; a value of the model's own
    type always converts, so no diagnostic comes back. *)
Definition State_Set {A} (resp : Resp A) (v : A) : Resp A * diag_Diagnostics :=
  ({| State := Some v; Diagnostics := Diagnostics resp |}, []).
End tfsdk.

(** [nangoClient]: the base URL; its [*retryablehttp.Client] is the world. *)
Record nangoClient := { baseURL : string }.

(** [integrationResource] and [integrationDataSource], after [Configure]. *)
Record integrationResource := { client : nangoClient }.
Record integrationDataSource := { ds_client : nangoClient }.

(* ===================================================================== *)
(** * The HTTP client and the operations *)
(* ===================================================================== *)

Section Provider.

(** The remote API behind [client.Do]: from its state and a request, its
    next state and the response, or the error the client returns (after
    its retries). For the client that [Configure] builds this is
    [retryablehttp_Do], which hands back no response with a status it
    retries (429, 0, the 500 range except 501). *)
Context {S : Type}.
Variable serve : S -> Request -> S * (string + Response).

(** [url.Parse] inside [NewRequest]: the error for a URL it rejects. *)
Variable url_error : string -> option string.

Local Open Scope go_scope.

(** [retryablehttp.NewRequest(method, url, body)]. *)
Definition NewRequest (method url : string) (body : option JSON) : string + Request :=
  match url_error url with
  | Some e => inl e
  | None => inr {| Method := method; URL := url; Header := ∅; ReqBody := body |}
  end.

(** [req.Header.Set(key, value)] on a request. *)
Definition Request_Header_Set (req : Request) (key value : string) : Request :=
  {| Method := Method req; URL := URL req;
     Header := Header_Set (Header req) key value; ReqBody := ReqBody req |}.

(** [client.Do(req)]: the request is recorded and served; the attempts of
    the retrying client are inside [serve]. *)
Definition client_Do (req : Request) : M S (string + Response) :=
  fun w =>
    let '(s', r) := serve (remote w) req in
    Ok r {| remote := s'; sent := sent w ++ [req]; now := now w |}.

(** [client.Get(url)]. *)
Definition client_Get (url : string) : M S (string + Response) :=
  match NewRequest "GET" url None with
  | inl e => ret (inl e)
  | inr req => client_Do req
  end.

(** [client.Post(url, bodyType, body)]. *)
Definition client_Post (url bodyType : string) (body : JSON) : M S (string + Response) :=
  match NewRequest "POST" url (Some body) with
  | inl e => ret (inl e)
  | inr req => client_Do (Request_Header_Set req "Content-Type" bodyType)
  end.

(** The end of every operation that sets the state:
    [diags = resp.State.Set(ctx, v); resp.Diagnostics.Append(diags...);
     if resp.Diagnostics.HasError() { return }]. *)
Definition set_state {A} (resp : tfsdk.Resp A) (v : A) : tfsdk.Resp A :=
  let '(resp, diags) := tfsdk.State_Set resp v in
  let resp := tfsdk.Diagnostics_Append resp diags in
  if HasError (tfsdk.Diagnostics resp) then resp else resp.

(** [integrationResource.Create]. *)
Definition Create (r : integrationResource)
    (req : tfsdk.Data integrationModel.t) (resp : tfsdk.Resp integrationModel.t)
  : M S (tfsdk.Resp integrationModel.t) :=
  let '(diags, plan) := tfsdk.Get req in
  let resp := tfsdk.Diagnostics_Append resp diags in
  if HasError (tfsdk.Diagnostics resp) then ret resp else
  credentials <- deref (integrationModel.Credentials plan) ;;
  let scopesString := scopes_string (integrationCredentialModel.Scopes credentials) in
  let request := Create_request plan credentials scopesString in
  match json_Marshal request with
  | inl err => ret (tfsdk.Diagnostics_AddError resp "Unable to Marshal JSON" err)
  | inr requestBody =>
      posted <- client_Post (baseURL (client r) +:+ "/integrations")
                  "application/json" requestBody ;;
      match posted with
      | inl err => ret (tfsdk.Diagnostics_AddError resp "Unable to Create Integration" err)
      | inr _ =>
          got <- client_Get (baseURL (client r) +:+ "/integrations/"
                             +:+ types.ValueString (integrationModel.UniqueKey plan)
                             +:+ "?include=webhook&include=credentials") ;;
          match got with
          | inl gErr => ret (tfsdk.Diagnostics_AddError resp "Unable to Get Integration" gErr)
          | inr getResponse =>
              match Decode_nanogoIntegrationResponse2 (Body getResponse) with
              | inl err => ret (tfsdk.Diagnostics_AddError resp "Unable to Decode JSON" err)
              | inr integration =>
                  let plan :=
                    {| integrationModel.UniqueKey :=
                         types.StringValue
                           (nangoIntegrationModel.UniqueKey
                              (nanogoIntegrationResponse2.Data integration));
                       integrationModel.DisplayName := integrationModel.DisplayName plan;
                       integrationModel.NangoProvider := integrationModel.NangoProvider plan;
                       integrationModel.UpdatedAt :=
                         types.StringValue
                           (nangoIntegrationModel.UpdatedAt
                              (nanogoIntegrationResponse2.Data integration));
                       integrationModel.Credentials := integrationModel.Credentials plan |} in
                  ret (set_state resp plan)
              end
          end
      end
  end.

(** [integrationResource.Read]: after the decoding nothing of the response
    is used (the assignments are commented out in the source). *)
Definition Read (r : integrationResource)
    (req : tfsdk.Data integrationModel.t) (resp : tfsdk.Resp integrationModel.t)
  : M S (tfsdk.Resp integrationModel.t) :=
  let '(diags, state) := tfsdk.Get req in
  let resp := tfsdk.Diagnostics_Append resp diags in
  if HasError (tfsdk.Diagnostics resp) then ret resp else
  got <- client_Get (baseURL (client r) +:+ "/integrations/"
                     +:+ types.ValueString (integrationModel.UniqueKey state)) ;;
  match got with
  | inl err =>
      ret (tfsdk.Diagnostics_AddError resp "Error Reading HashiCups Order"
             ("Could not read HashiCups order ID "
              +:+ types.ValueString (integrationModel.UniqueKey state) +:+ ": " +:+ err))
  | inr integrationResponse =>
      match Decode_nangoIntegrationModel (Body integrationResponse) with
      | inl err => ret (tfsdk.Diagnostics_AddError resp "Unable to Decode JSON" err)
      | inr integrations => ret (set_state resp state)
      end
  end.

(** [integrationResource.Update]. *)
Definition Update (r : integrationResource)
    (req : tfsdk.Data integrationModel.t) (resp : tfsdk.Resp integrationModel.t)
  : M S (tfsdk.Resp integrationModel.t) :=
  let '(diags, plan) := tfsdk.Get req in
  let resp := tfsdk.Diagnostics_Append resp diags in
  if HasError (tfsdk.Diagnostics resp) then ret resp else
  credentials <- deref (integrationModel.Credentials plan) ;;
  let scopesString := scopes_string (integrationCredentialModel.Scopes credentials) in
  let request := Update_request plan credentials scopesString in
  match json_Marshal request with
  | inl err => ret (tfsdk.Diagnostics_AddError resp "Unable to Marshal JSON" err)
  | inr requestBody =>
      match NewRequest "PATCH"
              (baseURL (client r) +:+ "/integrations/"
               +:+ types.ValueString (integrationModel.UniqueKey plan))
              (Some requestBody) with
      | inl err => ret (tfsdk.Diagnostics_AddError resp "Unable to Create Request" err)
      | inr req2 =>
          let req2 := Request_Header_Set req2 "Content-Type" "application/json" in
          done <- client_Do req2 ;;
          match done with
          | inl err => ret (tfsdk.Diagnostics_AddError resp "Unable to Update Integration" err)
          | inr response =>
              match Decode_nangoIntegrationModel (Body response) with
              | inl err => ret (tfsdk.Diagnostics_AddError resp "Unable to Decode JSON" err)
              | inr integration =>
                  let DisplayName :=
                    if decide (nangoIntegrationModel.DisplayName integration ≠ "")
                    then types.StringValue (nangoIntegrationModel.DisplayName integration)
                    else integrationModel.DisplayName plan in
                  UpdatedAt <-
                    (if decide (nangoIntegrationModel.UpdatedAt integration ≠ "")
                     then ret (types.StringValue (nangoIntegrationModel.UpdatedAt integration))
                     else (t <- time_Now ;; ret (types.StringValue t))) ;;
                  let plan :=
                    {| integrationModel.UniqueKey := integrationModel.UniqueKey plan;
                       integrationModel.DisplayName := DisplayName;
                       integrationModel.NangoProvider := integrationModel.NangoProvider plan;
                       integrationModel.UpdatedAt := UpdatedAt;
                       integrationModel.Credentials := integrationModel.Credentials plan |} in
                  ret (set_state resp plan)
              end
          end
      end
  end.

(** [integrationResource.Delete]: the body of the function is empty. *)
Definition Delete (r : integrationResource)
    (req : tfsdk.Data integrationModel.t) (resp : tfsdk.Resp integrationModel.t)
  : M S (tfsdk.Resp integrationModel.t) :=
  ret resp.

(** The body of the loop of the data source: one element of the envelope
    as an entry of the state. *)
Definition integ (integration : nangoIntegrationModel.t) : integrationModel.t :=
  {| integrationModel.UniqueKey :=
       types.StringValue (nangoIntegrationModel.UniqueKey integration);
     integrationModel.DisplayName :=
       types.StringValue (nangoIntegrationModel.DisplayName integration);
     integrationModel.NangoProvider :=
       types.StringValue (nangoIntegrationModel.NangoProvider integration);
     integrationModel.UpdatedAt :=
       types.StringValue (nangoIntegrationModel.UpdatedAt integration);
     integrationModel.Credentials := None |}.

(** [integrationDataSource.Read]: the loop appends one entry per element. *)
Definition DataSource_Read (d : integrationDataSource)
    (resp : tfsdk.Resp integrationDataSourceModel.t)
  : M S (tfsdk.Resp integrationDataSourceModel.t) :=
  let state := {| integrationDataSourceModel.Integrations := [] |} in
  got <- client_Get (baseURL (ds_client d) +:+ "/integrations") ;;
  match got with
  | inl err => ret (tfsdk.Diagnostics_AddError resp "Unable to Read Integrations" err)
  | inr integrationsResponse =>
      match Decode_nangoIntegrationResponse (Body integrationsResponse) with
      | inl err => ret (tfsdk.Diagnostics_AddError resp "Unable to Decode JSON" err)
      | inr integrations =>
          let state :=
            fold_left
              (fun state integration =>
                 {| integrationDataSourceModel.Integrations :=
                      integrationDataSourceModel.Integrations state ++ [integ integration] |})
              (nangoIntegrationResponse.Data integrations) state in
          ret (set_state resp state)
      end
  end.

End Provider.

(* ===================================================================== *)
(** * The authenticated transport *)
(* ===================================================================== *)

(** [myTransport]: the key; [next] is the section variable below. *)
Record myTransport := { authKey : string }.

Section Transport.

(** [t.next.RoundTrip]: the wrapped transport, a transition function on
    the state of the network. *)
Context {N : Type}.
Variable next_RoundTrip : N -> Request -> N * (string + Response).

(** [myTransport.RoundTrip]. The request is changed in place, so it is
    part of the result. Both bodies are read and put back as they were. *)
Definition RoundTrip (t : myTransport) (req : Request) (n : N)
  : Request * N * (string + Response) :=
  let req :=
    {| Method := Method req; URL := URL req;
       Header := Header_Add (Header req) "Authorization" ("Bearer " +:+ authKey t);
       ReqBody := ReqBody req |} in
  let '(n', r) := next_RoundTrip n req in
  match r with
  | inl err => (req, n', inl err)
  | inr resp =>
      let respBody := Body resp in
      (req, n', inr {| StatusCode := StatusCode resp; Body := respBody |})
  end.

End Transport.

(* ===================================================================== *)
(** * Servers and inputs for the examples *)
(* ===================================================================== *)

(** A scripted API: the replies are given in advance and served in order;
    when they run out the connection fails. *)
Definition scripted (s : list (string + Response)) (req : Request)
  : list (string + Response) * (string + Response) :=
  match s with
  | [] => ([], inl "connection refused")
  | reply :: rest => (rest, reply)
  end.

(** Every URL parses. *)
Definition any_url (url : string) : option string := None.

Definition world0 (script : list (string + Response)) : World (list (string + Response)) :=
  {| remote := script; sent := []; now := "2024-05-01T12:00:00Z" |}.

Definition resp0 {A} : tfsdk.Resp A := {| tfsdk.State := None; tfsdk.Diagnostics := [] |}.

Definition nango : integrationResource :=
  {| client := {| baseURL := "https://api.nango.dev" |} |}.

Definition nango_ds : integrationDataSource :=
  {| ds_client := {| baseURL := "https://api.nango.dev" |} |}.

(** The plan of the example of the specification. *)
Definition gh1_credentials : integrationCredentialModel.t :=
  {| integrationCredentialModel.ClientId := types.StringValue "x";
     integrationCredentialModel.ClientSecret := types.StringValue "y";
     integrationCredentialModel.Type_ := types.StringValue "OAUTH2";
     integrationCredentialModel.Scopes := types.ListValue [types.StringValue "repo"] |}.

Definition gh1_plan : integrationModel.t :=
  {| integrationModel.UniqueKey := types.StringValue "gh1";
     integrationModel.DisplayName := types.StringValue "GitHub";
     integrationModel.NangoProvider := types.StringValue "github";
     integrationModel.UpdatedAt := types.StringUnknown;
     integrationModel.Credentials := Some gh1_credentials |}.

(** An integration as the API prints it. *)
Definition wire (unique_key display_name provider updated_at scopes : string) : JSON :=
  JObject [ ("unique_key", JString unique_key);
            ("display_name", JString display_name);
            ("provider", JString provider);
            ("created_at", JString "2024-01-01T00:00:00Z");
            ("updated_at", JString updated_at);
            ("credentials",
             JObject [ ("type", JString "OAUTH2");
                       ("client_id", JString "x");
                       ("client_secret", JString "y");
                       ("scopes", JString scopes) ]) ].

Definition reply (status : Z) (body : JSON) : string + Response :=
  inr {| StatusCode := status; Body := Some body |}.


(** The requests as the client builds them. *)
Definition get_request (url : string) : Request :=
  {| Method := "GET"; URL := url; Header := ∅; ReqBody := None |}.

Definition post_request (url : string) (body : JSON) : Request :=
  {| Method := "POST"; URL := url;
     Header := <["Content-Type" := ["application/json"]]> ∅; ReqBody := Some body |}.

Definition patch_request (url : string) (body : JSON) : Request :=
  {| Method := "PATCH"; URL := url;
     Header := <["Content-Type" := ["application/json"]]> ∅; ReqBody := Some body |}.

(** The URLs of the operations. *)
Definition integrations_url (c : nangoClient) : string :=
  baseURL c +:+ "/integrations".

Definition integration_url (c : nangoClient) (unique_key : string) : string :=
  baseURL c +:+ "/integrations/" +:+ unique_key.

Definition integration_url_full (c : nangoClient) (unique_key : string) : string :=
  baseURL c +:+ "/integrations/" +:+ unique_key +:+ "?include=webhook&include=credentials".

(** The body [json.Marshal] gives for a request model. *)
Definition marshalled (request : integrationRequestModel.t) : JSON :=
  match json_Marshal request with
  | inr body => body
  | inl _ => JNull
  end.

(** An operation succeeds when it returns and its diagnostics hold no error. *)
Definition succeeds {S A} (c : M S (tfsdk.Resp A)) (w : World S)
    (resp' : tfsdk.Resp A) (w' : World S) : Prop :=
  c w = Ok resp' w' /\ HasError (tfsdk.Diagnostics resp') = false.

(** The request of an operation that carries a plan or a state. *)
Definition carrying {A} (v : A) : tfsdk.Data A := {| tfsdk.Get := ([], v) |}.

(** The API has stored the integration of the example and answers the
    follow-up GET with it; the answer to the POST is not JSON at all. *)
Definition script_gh1 : list (string + Response) :=
  [ inr {| StatusCode := 200; Body := None |};
    reply 200 (JObject [("data", wire "gh1" "GitHub" "github" "2024-05-01T10:00:00Z" "repo")]) ].

(** The state of the example after [Create]. *)
Definition gh1_state : integrationModel.t :=
  {| integrationModel.UniqueKey := types.StringValue "gh1";
     integrationModel.DisplayName := types.StringValue "GitHub";
     integrationModel.NangoProvider := types.StringValue "github";
     integrationModel.UpdatedAt := types.StringValue "2024-05-01T10:00:00Z";
     integrationModel.Credentials := Some gh1_credentials |}.

(** The integration was renamed and re-typed behind Terraform's back. *)
Definition drifted : JSON :=
  wire "gh1" "GitHub Enterprise" "github-app" "2024-06-01T00:00:00Z" "repo,user".

Definition script_drift : list (string + Response) := [ reply 200 drifted ].

(** A plan whose single scope holds a comma, and an API that returns the
    credentials as it received them. *)
Definition comma_plan : integrationModel.t :=
  {| integrationModel.UniqueKey := types.StringValue "gh1";
     integrationModel.DisplayName := types.StringValue "GitHub";
     integrationModel.NangoProvider := types.StringValue "github";
     integrationModel.UpdatedAt := types.StringUnknown;
     integrationModel.Credentials :=
       Some {| integrationCredentialModel.ClientId := types.StringValue "x";
               integrationCredentialModel.ClientSecret := types.StringValue "y";
               integrationCredentialModel.Type_ := types.StringValue "OAUTH2";
               integrationCredentialModel.Scopes :=
                 types.ListValue [types.StringValue "a,b"] |} |}.

Definition script_comma : list (string + Response) :=
  [ reply 200 (JObject [("data", wire "gh1" "GitHub" "github" "2024-05-01T10:00:00Z" "a,b")]);
    reply 200 (JObject [("data", wire "gh1" "GitHub" "github" "2024-05-01T10:00:00Z" "a,b")]) ].

(** The document of an API in trouble. *)
Definition error_body : JSON := JObject [("error", JObject [("code", JString "server_error")])].


(** A list of two integrations. *)
Definition script_list : list (string + Response) :=
  [ reply 200 (JObject [("data",
       JArray [ wire "gh1" "GitHub" "github" "2024-05-01T10:00:00Z" "repo";
                wire "sl1" "Slack" "slack" "2024-05-02T10:00:00Z" "chat:write" ])]) ].

(** An update whose answer names the integration but carries no timestamp. *)
Definition script_update : list (string + Response) :=
  [ reply 200 (JObject [("display_name", JString "GitHub (renamed)")]) ].

(** The scopes in the credentials of a state. *)
Definition state_scopes (st : option integrationModel.t) : option types.List :=
  match st with
  | Some {| integrationModel.Credentials := Some c |} =>
      Some (integrationCredentialModel.Scopes c)
  | _ => None
  end.

(** A request that already carries credentials of its own. *)
Definition basic_request : Request :=
  {| Method := "GET"; URL := "https://api.nango.dev/integrations";
     Header := <["Authorization" := ["Basic dXNlcjpwdw=="]]> ∅; ReqBody := None |}.

(* ===================================================================== *)
(** * The provider: configuration *)
(* ===================================================================== *)

(** [v.IsNull()] and [v.IsUnknown()] of a [types.String]. *)
Definition String_IsNull (v : types.String) : bool :=
  match v with
  | types.StringNull => true
  | _ => false
  end.

Definition String_IsUnknown (v : types.String) : bool :=
  match v with
  | types.StringUnknown => true
  | _ => false
  end.

(** Whether a byte is one of the bytes of [cutset]. *)
Fixpoint in_cutset (c : ascii) (cutset : string) : bool :=
  match cutset with
  | EmptyString => false
  | String d rest => if decide (c = d) then true else in_cutset c rest
  end.

(** [strings.TrimRight(s, cutset)]: [s] without its trailing bytes that are
    in [cutset] (for an ASCII cutset, as ["/"], bytes and code points agree). *)
Fixpoint strings_TrimRight (s cutset : string) : string :=
  match s with
  | EmptyString => EmptyString
  | String c rest =>
      match strings_TrimRight rest cutset with
      | EmptyString => if in_cutset c cutset then EmptyString else String c EmptyString
      | kept => String c kept
      end
  end.

(** [n] slashes. *)
Fixpoint slashes (n : nat) : string :=
  match n with
  | O => EmptyString
  | S n' => String "/" (slashes n')
  end.

(** [nangoProviderMdoel]: the configuration block of the provider. *)
Module nangoProviderMdoel.
Record t := {
  EnvironmentKey : types.String;  (* tfsdk:"environment_key" *)
  Host : types.String             (* tfsdk:"host" *)
}.
End nangoProviderMdoel.

(** The settings [Configure] gives to its [retryablehttp.Client]; the
    durations are in seconds. *)
Record retryablehttp_Client := {
  RetryMax : Z;
  RetryWaitMin : Z;
  RetryWaitMax : Z;
  HTTPClient_Timeout : Z;
  HTTPClient_Transport : myTransport
}.

(** The [*nangoClient] that [Configure] builds: the retrying client with
    its settings, and the handle with the base URL that the operations use. *)
Record builtClient := {
  retryClient : retryablehttp_Client;
  handle : nangoClient
}.

(** [provider.ConfigureResponse]. *)
Record ConfigureResponse := {
  Configure_Diagnostics : diag_Diagnostics;
  DataSourceData : option builtClient;
  ResourceData : option builtClient
}.

Definition Configure_AddError (resp : ConfigureResponse) (summary detail : string)
  : ConfigureResponse :=
  {| Configure_Diagnostics := AddError (Configure_Diagnostics resp) summary detail;
     DataSourceData := DataSourceData resp;
     ResourceData := ResourceData resp |}.

(** The variable [environmentKey] of [Configure] when it is tested:
    [os.Getenv("NANGO_ENVIRONMENT_KEY")], replaced by the configured value
    when that is not null. [getenv] is [os.Getenv] (an unset variable reads
    as [""]). *)
Definition Configure_environmentKey (getenv : string -> string)
    (config : nangoProviderMdoel.t) : string :=
  let environmentKey := getenv "NANGO_ENVIRONMENT_KEY" in
  if negb (String_IsNull (nangoProviderMdoel.EnvironmentKey config))
  then types.ValueString (nangoProviderMdoel.EnvironmentKey config)
  else environmentKey.

(** The variable [host] of [Configure] when the client is built:
    [os.Getenv("NANGO_HOST")], replaced by the configured value when that is
    neither null nor unknown, then by the default when empty, then trimmed. *)
Definition Configure_host (getenv : string -> string)
    (config : nangoProviderMdoel.t) : string :=
  let host := getenv "NANGO_HOST" in
  let host :=
    if negb (String_IsNull (nangoProviderMdoel.Host config))
       && negb (String_IsUnknown (nangoProviderMdoel.Host config))
    then types.ValueString (nangoProviderMdoel.Host config)
    else host in
  let host := if decide (host = "") then "https://api.nango.dev" else host in
  strings_TrimRight host "/".

(** [nangoProvider.Configure]. *)
Definition Provider_Configure (getenv : string -> string)
    (req : tfsdk.Data nangoProviderMdoel.t) (resp : ConfigureResponse)
  : ConfigureResponse :=
  let '(diags, config) := tfsdk.Get req in
  let resp :=
    {| Configure_Diagnostics := Append (Configure_Diagnostics resp) diags;
       DataSourceData := DataSourceData resp;
       ResourceData := ResourceData resp |} in
  if HasError (Configure_Diagnostics resp) then resp else
  if String_IsUnknown (nangoProviderMdoel.EnvironmentKey config) then
    Configure_AddError resp "Unable to find environment key"
      "Expected environment key to be set, but it was not."
  else
  if HasError (Configure_Diagnostics resp) then resp else
  let environmentKey := Configure_environmentKey getenv config in
  if decide (environmentKey = "") then
    Configure_AddError resp "Unable to find environment key2"
      "Expected environment key to be set, but it was not."
  else
  if HasError (Configure_Diagnostics resp) then resp else
  let host := Configure_host getenv config in
  let retryClient :=
    {| RetryMax := 3;
       RetryWaitMin := 1;
       RetryWaitMax := 5;
       HTTPClient_Timeout := 30;
       HTTPClient_Transport := {| authKey := environmentKey |} |} in
  let nc := {| retryClient := retryClient; handle := {| baseURL := host |} |} in
  {| Configure_Diagnostics := Configure_Diagnostics resp;
     DataSourceData := Some nc;
     ResourceData := Some nc |}.

(** A response of [Configure] before the call: no client yet. *)
Definition Configure_resp0 (diags : diag_Diagnostics) : ConfigureResponse :=
  {| Configure_Diagnostics := diags; DataSourceData := None; ResourceData := None |}.

(** An environment without variables, and one that sets both. *)
Definition no_env (name : string) : string := "".

Definition full_env (name : string) : string :=
  if decide (name = "NANGO_ENVIRONMENT_KEY") then "env-key"
  else if decide (name = "NANGO_HOST") then "https://env.example.com/"
  else "".

(** A configuration with a key and a self-hosted URL with trailing slashes. *)
Definition hosted_config : nangoProviderMdoel.t :=
  {| nangoProviderMdoel.EnvironmentKey := types.StringValue "secret";
     nangoProviderMdoel.Host := types.StringValue "https://nango.example.com//" |}.

(** [req.ProviderData] of the [Configure] of a resource or data source: nil,
    the [*nangoClient] of the provider, or a value of another type (with
    the name [%T] prints). *)
Inductive ProviderData :=
| ProviderData_nil
| ProviderData_nangoClient (nc : builtClient)
| ProviderData_other (type_name : string).

(** [integrationResource.Configure]: [r] is the resource with its [client]
    field, [None] while the field is nil. *)
Definition Resource_Configure (r : option integrationResource) (req : ProviderData)
    (diags : diag_Diagnostics) : option integrationResource * diag_Diagnostics :=
  match req with
  | ProviderData_nil => (r, diags)
  | ProviderData_other type_name =>
      (r, AddError diags "Unexpected Resource Configure Type"
            ("Expected *nangoClient, got: " +:+ type_name
             +:+ ". Please report this issue to the provider developers."))
  | ProviderData_nangoClient nc => (Some {| client := handle nc |}, diags)
  end.

(** [integrationDataSource.Configure]. *)
Definition DataSource_Configure (d : option integrationDataSource) (req : ProviderData)
    (diags : diag_Diagnostics) : option integrationDataSource * diag_Diagnostics :=
  match req with
  | ProviderData_nil => (d, diags)
  | ProviderData_other type_name =>
      (d, AddError diags "Unexpected Data Source Configure Type"
            ("Expected *nangoClient, got: " +:+ type_name
             +:+ ". Please report this issue to the provider developers."))
  | ProviderData_nangoClient nc => (Some {| ds_client := handle nc |}, diags)
  end.

(** [resp.State.SetAttribute(ctx, path.Root("unique_key"), id)]: on a state
    that is still null the other attributes are created null. *)
Definition State_SetAttribute_unique_key (resp : tfsdk.Resp integrationModel.t) (id : string)
  : tfsdk.Resp integrationModel.t * diag_Diagnostics :=
  let state :=
    match tfsdk.State resp with
    | Some st =>
        {| integrationModel.UniqueKey := types.StringValue id;
           integrationModel.DisplayName := integrationModel.DisplayName st;
           integrationModel.NangoProvider := integrationModel.NangoProvider st;
           integrationModel.UpdatedAt := integrationModel.UpdatedAt st;
           integrationModel.Credentials := integrationModel.Credentials st |}
    | None =>
        {| integrationModel.UniqueKey := types.StringValue id;
           integrationModel.DisplayName := types.StringNull;
           integrationModel.NangoProvider := types.StringNull;
           integrationModel.UpdatedAt := types.StringNull;
           integrationModel.Credentials := None |}
    end in
  ({| tfsdk.State := Some state; tfsdk.Diagnostics := tfsdk.Diagnostics resp |}, []).

(** [integrationResource.ImportState]: [id] is [req.ID]. *)
Definition ImportState (id : string) (resp : tfsdk.Resp integrationModel.t)
  : tfsdk.Resp integrationModel.t :=
  let '(resp, diags) := State_SetAttribute_unique_key resp id in
  tfsdk.Diagnostics_Append resp diags.

(** The same request handed [k] times to the transport: each pass works on
    the request as the pass before left it. *)
Fixpoint RoundTrips {N} (next_RoundTrip : N -> Request -> N * (string + Response))
    (t : myTransport) (k : nat) (req : Request) (n : N) : Request * N :=
  match k with
  | O => (req, n)
  | S k' =>
      let '(req', n', _) := RoundTrip next_RoundTrip t req n in
      RoundTrips next_RoundTrip t k' req' n'
  end.

(** The bodies the API may answer with that have no [data] member. *)
Definition no_data_member (ms : list (string * JSON)) : Prop :=
  Forall (fun kv => foldName kv.1 <> "data") ms.

(* ===================================================================== *)
(** * The retrying client *)
(* ===================================================================== *)

(** The statuses that the default policy of retryablehttp sends again:
    429, 0 and the 500 range except 501. *)
Definition retryable_status (code : Z) : bool :=
  (code =? 429)%Z || (code =? 0)%Z || ((500 <=? code)%Z && negb (code =? 501)%Z).

(** [c.CheckRetry(ctx, resp, err)] with the default policy: whether the
    attempt is to be repeated. [unrecoverable] tells the errors that the
    policy does not retry (too many redirects, an unsupported scheme, a
    certificate that does not verify). *)
Definition CheckRetry (unrecoverable : string -> bool) (r : string + Response) : bool :=
  match r with
  | inl err => negb (unrecoverable err)
  | inr resp => retryable_status (StatusCode resp)
  end.

(** The error of [Do] when it gives up; the wording is the library's and
    only approximated here. *)
Definition giving_up (req : Request) (attempt : nat) (r : string + Response) : string :=
  Method req +:+ " " +:+ URL req +:+ " giving up after " +:+ pretty attempt +:+ " attempt(s)"
  +:+ match r with
      | inl err => ": " +:+ err
      | inr resp =>
          if (StatusCode resp =? 429)%Z then ""
          else ": unexpected HTTP status " +:+ pretty (StatusCode resp)
      end.

(** The loop of [retryablehttp.Client.Do]: every attempt goes through the
    transport of the client, [myTransport.RoundTrip], with the request as
    the attempt before left it. An attempt that is not to be repeated ends
    the loop: its response is returned, its error is wrapped. An attempt
    that is to be repeated is repeated while [remain], which starts at
    [RetryMax], is not zero; then the client gives up with an error and
    without the response. (The waits between attempts are not modelled.) *)
Fixpoint retryablehttp_attempts {N} (next_RoundTrip : N -> Request -> N * (string + Response))
    (t : myTransport) (unrecoverable : string -> bool)
    (remain attempt : nat) (req : Request) (n : N) : N * (string + Response) :=
  let '(req', n', r) := RoundTrip next_RoundTrip t req n in
  if CheckRetry unrecoverable r then
    match remain with
    | O => (n', inl (giving_up req' attempt r))
    | S remain' =>
        retryablehttp_attempts next_RoundTrip t unrecoverable remain' (S attempt) req' n'
    end
  else
    match r with
    | inr resp => (n', inr resp)
    | inl err => (n', inl (giving_up req' attempt r))
    end.

(** [client.Do] of the client [Configure] builds, over the network
    [next_RoundTrip]: what the operations call through [serve]. *)
Definition retryablehttp_Do {N} (next_RoundTrip : N -> Request -> N * (string + Response))
    (c : retryablehttp_Client) (unrecoverable : string -> bool)
  : N -> Request -> N * (string + Response) :=
  fun n req =>
    retryablehttp_attempts next_RoundTrip (HTTPClient_Transport c) unrecoverable
      (Z.to_nat (RetryMax c)) 1 req n.

(** The client that [Configure] builds for the key ["secret"]. *)
Definition secret_client : retryablehttp_Client :=
  {| RetryMax := 3; RetryWaitMin := 1; RetryWaitMax := 5; HTTPClient_Timeout := 30;
     HTTPClient_Transport := {| authKey := "secret" |} |}.

(** No error is taken as unrecoverable. *)
Definition all_recoverable (err : string) : bool := false.

(** An API that answers 404, 500 or 200 with the same JSON error document. *)
Definition script_404 : list (string + Response) :=
  [ reply 404 error_body; reply 404 error_body ].



(** A list attribute of the Terraform state. *)
Inductive tfList (A : Type) :=
| tfList_Null
| tfList_Value (elems : list A).
Arguments tfList_Null {A}.
Arguments tfList_Value {A} _.

(** The attribute [integrations] that [State.Set] stores for the slice of
    the data source: null for the nil slice, the list of the elements
    otherwise. The slice of [integrationDataSource.Read] starts nil and only
    grows by [append], so it is nil exactly when it has no element. *)
Definition integrations_attribute (state : integrationDataSourceModel.t)
  : tfList integrationModel.t :=
  match integrationDataSourceModel.Integrations state with
  | [] => tfList_Null
  | elems => tfList_Value elems
  end.

(* ===================================================================== *)
(** * Diagnostics: basic facts *)
(* ===================================================================== *)

Lemma HasError_app (ds1 ds2 : diag_Diagnostics) :
  HasError (ds1 ++ ds2) = HasError ds1 || HasError ds2.
Proof. unfold HasError. apply existsb_app. Qed.

Lemma HasError_elem (d : Diagnostic) (ds : diag_Diagnostics) :
  d ∈ ds -> is_error d = true -> HasError ds = true.
Proof.
  intros Hin Hd. unfold HasError. apply existsb_exists.
  exists d. split; [by apply list_elem_of_In | done].
Qed.

Lemma HasError_Append (ds new : diag_Diagnostics) :
  HasError (Append ds new) = HasError ds || HasError new.
Proof.
  unfold Append. revert ds.
  induction new as [|d new IH]; intros ds; simpl.
  - by rewrite orb_false_r.
  - rewrite IH. destruct (decide (d ∈ ds)) as [Hin|Hnin].
    + destruct (is_error d) eqn:Hd; simpl.
      * rewrite (HasError_elem d ds Hin Hd). done.
      * done.
    + rewrite HasError_app. simpl. rewrite orb_false_r.
      by rewrite orb_assoc.
Qed.

Lemma HasError_AddError (ds : diag_Diagnostics) (summary detail : string) :
  HasError (AddError ds summary detail) = true.
Proof.
  unfold AddError. rewrite HasError_Append. simpl. by rewrite orb_true_r.
Qed.

Lemma Append_nil (ds : diag_Diagnostics) : Append ds [] = ds.
Proof. reflexivity. Qed.

#[global] Arguments Append : simpl never.
#[global] Arguments AddError : simpl never.
#[global] Arguments tfsdk.Diagnostics_AddError : simpl never.
#[global] Arguments tfsdk.Diagnostics_Append : simpl never.

Lemma Diagnostics_AddError_HasError {A} (resp : tfsdk.Resp A) (summary detail : string) :
  HasError (tfsdk.Diagnostics (tfsdk.Diagnostics_AddError resp summary detail)) = true.
Proof. apply HasError_AddError. Qed.

Lemma set_state_eq {A} (resp : tfsdk.Resp A) (v : A) :
  set_state resp v = {| tfsdk.State := Some v; tfsdk.Diagnostics := tfsdk.Diagnostics resp |}.
Proof.
  unfold set_state. simpl. by destruct (HasError _).
Qed.

(* ===================================================================== *)
(** * What a successful operation has done *)
(* ===================================================================== *)

Section Success.

Context {S : Type}.
Variable serve : S -> Request -> S * (string + Response).
Variable url_error : string -> option string.

(** A branch that ends in [AddError] is not a success. *)
Ltac failed_branch H Herr :=
  inversion H; subst;
  rewrite Diagnostics_AddError_HasError in Herr; discriminate Herr.

Lemma Create_success_inv r req resp (w w' : World S) resp' :
  succeeds (Create serve url_error r req resp) w resp' w' ->
  let plan := (tfsdk.Get req).2 in
  exists credentials body s1 postResponse getResponse integration,
    integrationModel.Credentials plan = Some credentials /\
    json_Marshal
      (Create_request plan credentials
         (scopes_string (integrationCredentialModel.Scopes credentials))) = inr body /\
    serve (remote w) (post_request (integrations_url (client r)) body)
      = (s1, inr postResponse) /\
    serve s1 (get_request
                (integration_url_full (client r)
                   (types.ValueString (integrationModel.UniqueKey plan))))
      = (remote w', inr getResponse) /\
    Decode_nanogoIntegrationResponse2 (Body getResponse) = inr integration /\
    sent w' = sent w
              ++ [ post_request (integrations_url (client r)) body;
                   get_request
                     (integration_url_full (client r)
                        (types.ValueString (integrationModel.UniqueKey plan))) ] /\
    now w' = now w /\
    resp' =
      {| tfsdk.State :=
           Some {| integrationModel.UniqueKey :=
                     types.StringValue
                       (nangoIntegrationModel.UniqueKey
                          (nanogoIntegrationResponse2.Data integration));
                   integrationModel.DisplayName := integrationModel.DisplayName plan;
                   integrationModel.NangoProvider := integrationModel.NangoProvider plan;
                   integrationModel.UpdatedAt :=
                     types.StringValue
                       (nangoIntegrationModel.UpdatedAt
                          (nanogoIntegrationResponse2.Data integration));
                   integrationModel.Credentials := integrationModel.Credentials plan |};
         tfsdk.Diagnostics := Append (tfsdk.Diagnostics resp) (tfsdk.Get req).1 |}.
Proof.
  intros [Hrun Herr]. destruct req as [[diags plan]]. simpl.
  unfold Create in Hrun. simpl in Hrun.
  unfold tfsdk.Diagnostics_Append in Hrun at 1. simpl in Hrun.
  destruct (HasError (Append (tfsdk.Diagnostics resp) diags)) eqn:Hplan.
  { inversion Hrun; subst. simpl in Herr. congruence. }
  unfold bind in Hrun.
  destruct (integrationModel.Credentials plan) as [credentials|] eqn:Hcred;
    simpl in Hrun; [|discriminate].
  unfold client_Post, NewRequest in Hrun.
  fold (integrations_url (client r)) in Hrun.
  destruct (url_error (integrations_url (client r))) eqn:Hu1; simpl in Hrun.
  { failed_branch Hrun Herr. }
  unfold client_Do in Hrun at 1.
  unfold Request_Header_Set, Header_Set in Hrun. simpl in Hrun.
  match type of Hrun with context [serve (remote w) ?q] =>
    change q with (post_request (integrations_url (client r))
      (JObject
        (omitempty "unique_key" (types.ValueStringPointer (integrationModel.UniqueKey plan))
         ++ [("display_name", JString (types.ValueString (integrationModel.DisplayName plan)))]
         ++ omitempty "provider" (types.ValueStringPointer (integrationModel.NangoProvider plan))
         ++ [("credentials",
              marshal_credentials
                (request_credentials credentials
                   (scopes_string (integrationCredentialModel.Scopes credentials))))]))) in Hrun
  end.
  match type of Hrun with context [post_request _ ?b] => set (body := b) in * end.
  destruct (serve (remote w) (post_request (integrations_url (client r)) body))
    as [s1 [err|postResponse]] eqn:Hpost; simpl in Hrun.
  { failed_branch Hrun Herr. }
  unfold client_Get, NewRequest in Hrun.
  fold (integration_url_full (client r)
          (types.ValueString (integrationModel.UniqueKey plan))) in Hrun.
  destruct (url_error (integration_url_full (client r)
              (types.ValueString (integrationModel.UniqueKey plan)))) eqn:Hu2;
    simpl in Hrun.
  { failed_branch Hrun Herr. }
  unfold client_Do in Hrun. simpl in Hrun.
  fold (get_request (integration_url_full (client r)
          (types.ValueString (integrationModel.UniqueKey plan)))) in Hrun.
  destruct (serve s1 _) as [s2 [gErr|getResponse]] eqn:Hget; simpl in Hrun.
  { failed_branch Hrun Herr. }
  destruct (Decode_nanogoIntegrationResponse2 (Body getResponse))
    as [err|integration] eqn:Hdec.
  { failed_branch Hrun Herr. }
  unfold ret in Hrun. rewrite set_state_eq in Hrun.
  inversion Hrun; subst; clear Hrun. simpl.
  exists credentials, body, s1, postResponse, getResponse, integration.
  repeat split; try done.
  by rewrite <- app_assoc.
Qed.

Lemma Read_success_inv r req resp (w w' : World S) resp' :
  succeeds (Read serve url_error r req resp) w resp' w' ->
  let state := (tfsdk.Get req).2 in
  let get := get_request
               (integration_url (client r)
                  (types.ValueString (integrationModel.UniqueKey state))) in
  exists integrationResponse integrations,
    serve (remote w) get = (remote w', inr integrationResponse) /\
    Decode_nangoIntegrationModel (Body integrationResponse) = inr integrations /\
    sent w' = sent w ++ [get] /\
    now w' = now w /\
    resp' = {| tfsdk.State := Some state;
               tfsdk.Diagnostics := Append (tfsdk.Diagnostics resp) (tfsdk.Get req).1 |}.
Proof.
  intros [Hrun Herr]. destruct req as [[diags state]]. simpl.
  unfold Read in Hrun. simpl in Hrun.
  unfold tfsdk.Diagnostics_Append in Hrun at 1. simpl in Hrun.
  destruct (HasError (Append (tfsdk.Diagnostics resp) diags)) eqn:Hstate.
  { inversion Hrun; subst. simpl in Herr. congruence. }
  unfold bind, client_Get, NewRequest in Hrun.
  fold (integration_url (client r)
          (types.ValueString (integrationModel.UniqueKey state))) in Hrun.
  destruct (url_error (integration_url (client r)
              (types.ValueString (integrationModel.UniqueKey state)))) eqn:Hu;
    simpl in Hrun.
  { failed_branch Hrun Herr. }
  unfold client_Do in Hrun.
  fold (get_request (integration_url (client r)
          (types.ValueString (integrationModel.UniqueKey state)))) in Hrun.
  destruct (serve (remote w) _) as [s1 [err|integrationResponse]] eqn:Hget;
    simpl in Hrun.
  { failed_branch Hrun Herr. }
  destruct (Decode_nangoIntegrationModel (Body integrationResponse))
    as [err|integrations] eqn:Hdec.
  { failed_branch Hrun Herr. }
  unfold ret in Hrun. rewrite set_state_eq in Hrun.
  inversion Hrun; subst; clear Hrun. simpl.
  by exists integrationResponse, integrations.
Qed.

Lemma Update_success_inv r req resp (w w' : World S) resp' :
  succeeds (Update serve url_error r req resp) w resp' w' ->
  let plan := (tfsdk.Get req).2 in
  exists credentials body response integration,
    let patch := patch_request
                   (integration_url (client r)
                      (types.ValueString (integrationModel.UniqueKey plan))) body in
    integrationModel.Credentials plan = Some credentials /\
    json_Marshal
      (Update_request plan credentials
         (scopes_string (integrationCredentialModel.Scopes credentials))) = inr body /\
    serve (remote w) patch = (remote w', inr response) /\
    Decode_nangoIntegrationModel (Body response) = inr integration /\
    sent w' = sent w ++ [patch] /\
    now w' = now w /\
    resp' =
      {| tfsdk.State :=
           Some {| integrationModel.UniqueKey := integrationModel.UniqueKey plan;
                   integrationModel.DisplayName :=
                     if decide (nangoIntegrationModel.DisplayName integration ≠ "")
                     then types.StringValue (nangoIntegrationModel.DisplayName integration)
                     else integrationModel.DisplayName plan;
                   integrationModel.NangoProvider := integrationModel.NangoProvider plan;
                   integrationModel.UpdatedAt :=
                     if decide (nangoIntegrationModel.UpdatedAt integration ≠ "")
                     then types.StringValue (nangoIntegrationModel.UpdatedAt integration)
                     else types.StringValue (now w);
                   integrationModel.Credentials := integrationModel.Credentials plan |};
         tfsdk.Diagnostics := Append (tfsdk.Diagnostics resp) (tfsdk.Get req).1 |}.
Proof.
  intros [Hrun Herr]. destruct req as [[diags plan]]. simpl.
  unfold Update in Hrun. simpl in Hrun.
  unfold tfsdk.Diagnostics_Append in Hrun at 1. simpl in Hrun.
  destruct (HasError (Append (tfsdk.Diagnostics resp) diags)) eqn:Hplan.
  { inversion Hrun; subst. simpl in Herr. congruence. }
  unfold bind in Hrun.
  destruct (integrationModel.Credentials plan) as [credentials|] eqn:Hcred;
    simpl in Hrun; [|discriminate].
  unfold NewRequest in Hrun.
  fold (integration_url (client r)
          (types.ValueString (integrationModel.UniqueKey plan))) in Hrun.
  destruct (url_error (integration_url (client r)
              (types.ValueString (integrationModel.UniqueKey plan)))) eqn:Hu;
    simpl in Hrun.
  { failed_branch Hrun Herr. }
  unfold client_Do in Hrun.
  unfold Request_Header_Set, Header_Set in Hrun. simpl in Hrun.
  match type of Hrun with context [serve (remote w) ?q] =>
    match q with
    | {| ReqBody := Some ?b |} =>
        change q with (patch_request
                         (integration_url (client r)
                            (types.ValueString (integrationModel.UniqueKey plan))) b) in Hrun;
        set (body := b) in *
    end
  end.
  destruct (serve (remote w) _) as [s1 [err|response]] eqn:Hpatch; simpl in Hrun.
  { failed_branch Hrun Herr. }
  destruct (Decode_nangoIntegrationModel (Body response)) as [err|integration] eqn:Hdec.
  { failed_branch Hrun Herr. }
  exists credentials, body, response, integration. simpl.
  destruct (decide (nangoIntegrationModel.UpdatedAt integration ≠ ""));
    unfold ret, time_Now in Hrun; simpl in Hrun;
    rewrite set_state_eq in Hrun;
    inversion Hrun; subst; clear Hrun; simpl; done.
Qed.

Lemma Integrations_loop (data : list nangoIntegrationModel.t) (acc : integrationDataSourceModel.t) :
  fold_left
    (fun state integration =>
       {| integrationDataSourceModel.Integrations :=
            integrationDataSourceModel.Integrations state ++ [integ integration] |})
    data acc
  = {| integrationDataSourceModel.Integrations :=
         integrationDataSourceModel.Integrations acc ++ map integ data |}.
Proof.
  revert acc. induction data as [|x data IH]; intros [l]; simpl.
  - by rewrite app_nil_r.
  - rewrite IH. simpl. by rewrite <- app_assoc.
Qed.

Lemma DataSource_Read_success_inv d resp (w w' : World S) resp' :
  succeeds (DataSource_Read serve url_error d resp) w resp' w' ->
  let get := get_request (integrations_url (ds_client d)) in
  exists integrationsResponse integrations,
    serve (remote w) get = (remote w', inr integrationsResponse) /\
    Decode_nangoIntegrationResponse (Body integrationsResponse) = inr integrations /\
    sent w' = sent w ++ [get] /\
    now w' = now w /\
    resp' = {| tfsdk.State :=
                 Some {| integrationDataSourceModel.Integrations :=
                           map integ (nangoIntegrationResponse.Data integrations) |};
               tfsdk.Diagnostics := tfsdk.Diagnostics resp |}.
Proof.
  intros [Hrun Herr]. simpl.
  unfold DataSource_Read, bind, client_Get, NewRequest in Hrun.
  fold (integrations_url (ds_client d)) in Hrun.
  destruct (url_error (integrations_url (ds_client d))) eqn:Hu; simpl in Hrun.
  { failed_branch Hrun Herr. }
  unfold client_Do in Hrun.
  fold (get_request (integrations_url (ds_client d))) in Hrun.
  destruct (serve (remote w) _) as [s1 [err|integrationsResponse]] eqn:Hget;
    simpl in Hrun.
  { failed_branch Hrun Herr. }
  destruct (Decode_nangoIntegrationResponse (Body integrationsResponse))
    as [err|integrations] eqn:Hdec.
  { failed_branch Hrun Herr. }
  unfold ret in Hrun. rewrite set_state_eq, Integrations_loop in Hrun.
  inversion Hrun; subst; clear Hrun. simpl.
  by exists integrationsResponse, integrations.
Qed.

Lemma json_Marshal_marshalled request : json_Marshal request = inr (marshalled request).
Proof. reflexivity. Qed.





(** ** The status code is not looked at *)






End Success.

(* ===================================================================== *)
(** * The transport and the Authorization header *)
(* ===================================================================== *)

(** [RoundTrip] appends its value to the values the request already has. *)
Lemma RoundTrip_Authorization_values {N} (next : N -> Request -> N * (string + Response))
    (t : myTransport) (req : Request) (n : N) :
  Header_Values (Header (RoundTrip next t req n).1.1) "Authorization"
  = Header_Values (Header req) "Authorization" ++ ["Bearer " +:+ authKey t].
Proof.
  unfold RoundTrip.
  destruct (next n _) as [n' [err|resp]]; simpl;
    unfold Header_Values, Header_Add; by rewrite lookup_insert_eq.
Qed.

(** On a request without an Authorization value the header is the bearer
    credential alone. *)
Lemma RoundTrip_Authorization_fresh {N} (next : N -> Request -> N * (string + Response))
    (t : myTransport) (req : Request) (n : N) :
  Header req !! "Authorization" = None ->
  Header_Values (Header (RoundTrip next t req n).1.1) "Authorization"
  = ["Bearer " +:+ authKey t].
Proof.
  intros Hnone. rewrite RoundTrip_Authorization_values.
  unfold Header_Values. by rewrite Hnone.
Qed.

(** C3. The specification has the transport overwrite any prior
    Authorization value with [Bearer <key>]. The code calls [Header.Add]:
    on a request that carries [Basic dXNlcjpwdw==] the header has two values
    after [RoundTrip], the old one first, and [Header.Get] still answers the
    old one; on the request of a retry, which already went through
    [RoundTrip] once, the bearer value is there twice. *)
Theorem C3_RoundTrip_keeps_prior_Authorization :
  let t := {| authKey := "k" |} in
  let once := (RoundTrip scripted t basic_request []).1.1 in
  let retried :=
    (RoundTrip scripted t
       (RoundTrip scripted t (get_request "https://api.nango.dev/integrations") []).1.1
       []).1.1 in
  Header_Values (Header once) "Authorization" = ["Basic dXNlcjpwdw=="; "Bearer k"]
  /\ Header_Get (Header once) "Authorization" = "Basic dXNlcjpwdw=="
  /\ Header_Values (Header once) "Authorization" <> ["Bearer k"]
  /\ Header_Values (Header retried) "Authorization" = ["Bearer k"; "Bearer k"].
Proof.
  repeat split; try (vm_compute; reflexivity).
  vm_compute. discriminate.
Qed.

(* ===================================================================== *)
(** * Delete *)
(* ===================================================================== *)

(** C2. [Delete] returns at once: whatever the state of the request, no
    request is handed to the client (the world, with the list of requests
    sent and the remote API, is as before), the response is the one it was
    given, and its diagnostics, empty on entry, are empty on return. *)
Theorem C2_Delete_no_request_no_diagnostic {S} (r : integrationResource)
    (req : tfsdk.Data integrationModel.t) (st : option integrationModel.t) (w : World S) :
  exists resp' w',
    Delete r req {| tfsdk.State := st; tfsdk.Diagnostics := [] |} w = Ok resp' w'
    /\ sent w' = sent w
    /\ remote w' = remote w
    /\ tfsdk.Diagnostics resp' = []
    /\ tfsdk.State resp' = st.
Proof.
  exists {| tfsdk.State := st; tfsdk.Diagnostics := [] |}, w.
  repeat split; reflexivity.
Qed.

(* ===================================================================== *)
(** * Read *)
(* ===================================================================== *)

(** A successful [Read] sets the state it was given, whatever was decoded. *)
Lemma Read_keeps_state {S} (serve : S -> Request -> S * (string + Response)) url_error
    r req resp (w w' : World S) resp' :
  succeeds (Read serve url_error r req resp) w resp' w' ->
  tfsdk.State resp' = Some (tfsdk.Get req).2.
Proof.
  intros Hok. apply Read_success_inv in Hok.
  destruct Hok as (integrationResponse & integrations & _ & _ & _ & _ & ->).
  reflexivity.
Qed.

(** C1. The specification has [Read] overwrite [display_name],
    [nango_provider], [updated_at] and the credentials from the decoded
    response. In the code the assignments are commented out: with the state
    of the example and an API that answers with a renamed, re-typed and
    re-stamped integration, the GET succeeds, the body decodes to the new
    values, and the state written back is the old state, field by field. *)
Theorem C1_Read_writes_back_the_prior_state :
  exists resp' w' integrations,
    succeeds (Read scripted any_url nango (carrying gh1_state) resp0)
      (world0 script_drift) resp' w'
    /\ sent w' = [get_request "https://api.nango.dev/integrations/gh1"]
    /\ Decode_nangoIntegrationModel (Some drifted) = inr integrations
    /\ nangoIntegrationModel.DisplayName integrations = "GitHub Enterprise"
    /\ nangoIntegrationModel.NangoProvider integrations = "github-app"
    /\ nangoIntegrationModel.UpdatedAt integrations = "2024-06-01T00:00:00Z"
    /\ tfsdk.State resp' = Some gh1_state
    /\ integrationModel.DisplayName gh1_state
        <> types.StringValue (nangoIntegrationModel.DisplayName integrations)
    /\ integrationModel.NangoProvider gh1_state
        <> types.StringValue (nangoIntegrationModel.NangoProvider integrations)
    /\ integrationModel.UpdatedAt gh1_state
        <> types.StringValue (nangoIntegrationModel.UpdatedAt integrations).
Proof.
  eexists _, _, _. unfold succeeds.
  repeat split; try (vm_compute; reflexivity); vm_compute; discriminate.
Qed.

(* ===================================================================== *)
(** * Create *)
(* ===================================================================== *)

(** C4. A successful [Create] hands exactly two requests to the client, in
    this order: a POST to [{baseURL}/integrations], then a GET to
    [{baseURL}/integrations/k?include=webhook&include=credentials] for the
    [unique_key] [k] of the plan. Both were answered, whatever the answer to
    the POST was; the body of the GET decoded, and [unique_key] and
    [updated_at] of the state are the ones decoded from it. With the plan of
    the example, against an API that answers the GET with the integration it
    stored (and the POST with a body that is not JSON), the two requests are
    the POST and the GET to [/integrations/gh1?include=webhook&include=credentials]
    and the state has [unique_key = "gh1"] and a non-empty [updated_at]. *)
Theorem C4_Create_POST_then_GET :
  (forall S (serve : S -> Request -> S * (string + Response)) url_error
          r req resp (w w' : World S) resp',
     succeeds (Create serve url_error r req resp) w resp' w' ->
     let plan := (tfsdk.Get req).2 in
     let k := types.ValueString (integrationModel.UniqueKey plan) in
     exists body s1 postResponse getResponse integration state,
       let post := post_request (baseURL (client r) +:+ "/integrations") body in
       let get := get_request (baseURL (client r) +:+ "/integrations/" +:+ k
                               +:+ "?include=webhook&include=credentials") in
       sent w' = sent w ++ [post; get]
       /\ serve (remote w) post = (s1, inr postResponse)
       /\ serve s1 get = (remote w', inr getResponse)
       /\ Decode_nanogoIntegrationResponse2 (Body getResponse) = inr integration
       /\ tfsdk.State resp' = Some state
       /\ integrationModel.UniqueKey state
           = types.StringValue
               (nangoIntegrationModel.UniqueKey (nanogoIntegrationResponse2.Data integration))
       /\ integrationModel.UpdatedAt state
           = types.StringValue
               (nangoIntegrationModel.UpdatedAt (nanogoIntegrationResponse2.Data integration)))
  /\ (exists resp' w' body state updated_at,
        succeeds (Create scripted any_url nango (carrying gh1_plan) resp0)
          (world0 script_gh1) resp' w'
        /\ sent w'
            = [ post_request "https://api.nango.dev/integrations" body;
                get_request
                  "https://api.nango.dev/integrations/gh1?include=webhook&include=credentials" ]
        /\ tfsdk.State resp' = Some state
        /\ integrationModel.UniqueKey state = types.StringValue "gh1"
        /\ integrationModel.UpdatedAt state = types.StringValue updated_at
        /\ updated_at <> "").
Proof.
  split.
  - intros S serve url_error r req resp w w' resp' Hok.
    apply Create_success_inv in Hok. simpl in Hok.
    destruct Hok as (credentials & body & s1 & postResponse & getResponse & integration
                     & Hcred & Hbody & Hpost & Hget & Hdec & Hsent & Hnow & ->).
    simpl. eexists body, s1, postResponse, getResponse, integration, _.
    repeat split; try eassumption; reflexivity.
  - eexists _, _, _, _, _. unfold succeeds.
    repeat split; try (vm_compute; reflexivity). vm_compute. discriminate.
Qed.

(** The example of the specification, through the theorem. *)
Lemma C4_Create_gh1_witness :
  exists resp' w' state,
    succeeds (Create scripted any_url nango (carrying gh1_plan) resp0)
      (world0 script_gh1) resp' w'
    /\ length (sent w') = 2
    /\ tfsdk.State resp' = Some state
    /\ integrationModel.UniqueKey state = types.StringValue "gh1"
    /\ integrationModel.UpdatedAt state = types.StringValue "2024-05-01T10:00:00Z".
Proof.
  assert (Hok : succeeds (Create scripted any_url nango (carrying gh1_plan) resp0)
                  (world0 script_gh1)
                  {| tfsdk.State := Some gh1_state; tfsdk.Diagnostics := [] |}
                  {| remote := [];
                     sent := [ post_request "https://api.nango.dev/integrations"
                                 (marshalled (Create_request gh1_plan gh1_credentials "repo"));
                               get_request
                                 "https://api.nango.dev/integrations/gh1?include=webhook&include=credentials" ];
                     now := "2024-05-01T12:00:00Z" |}).
  { split; vm_compute; reflexivity. }
  destruct (proj1 C4_Create_POST_then_GET _ _ _ _ _ _ _ _ _ Hok)
    as (body & s1 & postResponse & getResponse & integration & state
        & Hsent & Hpost & Hget & Hdec & Hstate & Hkey & Hat).
  eexists _, _, state. split; [exact Hok|].
  split; [reflexivity|]. split; [exact Hstate|].
  simpl in Hstate. inversion Hstate; subst state. split; reflexivity.
Defined.

(** C10. After a successful [Create] only [unique_key] and [updated_at] of
    the state come from the answer to the GET; [display_name],
    [nango_provider] and the credentials block, with [client_id],
    [client_secret], [type] and [scopes], are those of the plan. *)
Theorem C10_Create_keeps_planned_fields {S}
    (serve : S -> Request -> S * (string + Response)) url_error
    r req resp (w w' : World S) resp' :
  succeeds (Create serve url_error r req resp) w resp' w' ->
  let plan := (tfsdk.Get req).2 in
  exists state credentials s1 getResponse integration,
    tfsdk.State resp' = Some state
    /\ serve s1 (get_request
                   (integration_url_full (client r)
                      (types.ValueString (integrationModel.UniqueKey plan))))
        = (remote w', inr getResponse)
    /\ Decode_nanogoIntegrationResponse2 (Body getResponse) = inr integration
    /\ integrationModel.UniqueKey state
        = types.StringValue
            (nangoIntegrationModel.UniqueKey (nanogoIntegrationResponse2.Data integration))
    /\ integrationModel.UpdatedAt state
        = types.StringValue
            (nangoIntegrationModel.UpdatedAt (nanogoIntegrationResponse2.Data integration))
    /\ integrationModel.DisplayName state = integrationModel.DisplayName plan
    /\ integrationModel.NangoProvider state = integrationModel.NangoProvider plan
    /\ integrationModel.Credentials plan = Some credentials
    /\ integrationModel.Credentials state = Some credentials.
Proof.
  intros Hok. apply Create_success_inv in Hok. simpl in Hok.
  destruct Hok as (credentials & body & s1 & postResponse & getResponse & integration
                   & Hcred & Hbody & Hpost & Hget & Hdec & Hsent & Hnow & ->).
  simpl. eexists _, credentials, s1, getResponse, integration.
  repeat split; try eassumption; reflexivity.
Qed.

(** An API that answers the GET with other values than the planned ones:
    the name, the provider and the credentials of the state stay the
    planned ones. *)
Lemma C10_Create_keeps_planned_fields_witness :
  exists resp' w' state,
    succeeds (Create scripted any_url nango (carrying gh1_plan) resp0)
      (world0 [reply 200 JNull; reply 200 (JObject [("data", drifted)])]) resp' w'
    /\ tfsdk.State resp' = Some state
    /\ integrationModel.UpdatedAt state = types.StringValue "2024-06-01T00:00:00Z"
    /\ integrationModel.DisplayName state = types.StringValue "GitHub"
    /\ integrationModel.NangoProvider state = types.StringValue "github"
    /\ integrationModel.Credentials state = Some gh1_credentials.
Proof.
  assert (Hok : succeeds (Create scripted any_url nango (carrying gh1_plan) resp0)
                  (world0 [reply 200 JNull; reply 200 (JObject [("data", drifted)])])
                  {| tfsdk.State :=
                       Some {| integrationModel.UniqueKey := types.StringValue "gh1";
                               integrationModel.DisplayName := types.StringValue "GitHub";
                               integrationModel.NangoProvider := types.StringValue "github";
                               integrationModel.UpdatedAt :=
                                 types.StringValue "2024-06-01T00:00:00Z";
                               integrationModel.Credentials := Some gh1_credentials |};
                     tfsdk.Diagnostics := [] |}
                  {| remote := [];
                     sent := [ post_request "https://api.nango.dev/integrations"
                                 (marshalled (Create_request gh1_plan gh1_credentials "repo"));
                               get_request
                                 "https://api.nango.dev/integrations/gh1?include=webhook&include=credentials" ];
                     now := "2024-05-01T12:00:00Z" |}).
  { split; vm_compute; reflexivity. }
  destruct (C10_Create_keeps_planned_fields _ _ _ _ _ _ _ _ Hok)
    as (state & credentials & s1 & getResponse & integration
        & Hstate & Hget & Hdec & Hkey & Hat & Hname & Hprov & Hplan & Hcred).
  eexists _, _, state. split; [exact Hok|]. split; [exact Hstate|].
  simpl in Hname, Hprov, Hplan. inversion Hplan; subst credentials.
  simpl in Hstate. inversion Hstate; subst state.
  repeat split; assumption || reflexivity.
Defined.

(* ===================================================================== *)
(** * Update *)
(* ===================================================================== *)

(** C7. After a successful [Update] (the PATCH was answered and the body
    decoded) the [display_name] of the state is the one of the response
    when it is not empty, else the planned one; [updated_at] is the one of
    the response when it is not empty, else the time of the clock. *)
Theorem C7_Update_display_name_and_updated_at {S}
    (serve : S -> Request -> S * (string + Response)) url_error
    r req resp (w w' : World S) resp' :
  succeeds (Update serve url_error r req resp) w resp' w' ->
  let plan := (tfsdk.Get req).2 in
  exists body response integration state,
    serve (remote w)
      (patch_request
         (baseURL (client r) +:+ "/integrations/"
          +:+ types.ValueString (integrationModel.UniqueKey plan)) body)
    = (remote w', inr response)
    /\ Decode_nangoIntegrationModel (Body response) = inr integration
    /\ tfsdk.State resp' = Some state
    /\ integrationModel.DisplayName state
        = (if decide (nangoIntegrationModel.DisplayName integration = "")
           then integrationModel.DisplayName plan
           else types.StringValue (nangoIntegrationModel.DisplayName integration))
    /\ integrationModel.UpdatedAt state
        = (if decide (nangoIntegrationModel.UpdatedAt integration = "")
           then types.StringValue (now w)
           else types.StringValue (nangoIntegrationModel.UpdatedAt integration)).
Proof.
  intros Hok. apply Update_success_inv in Hok. simpl in Hok.
  destruct Hok as (credentials & body & response & integration
                   & Hcred & Hbody & Hpatch & Hdec & Hsent & Hnow & ->).
  simpl. eexists body, response, integration, _.
  repeat split; try eassumption; try reflexivity; simpl.
  - destruct (decide (nangoIntegrationModel.DisplayName integration ≠ ""));
      destruct (decide (nangoIntegrationModel.DisplayName integration = ""));
      first [reflexivity | exfalso; tauto].
  - destruct (decide (nangoIntegrationModel.UpdatedAt integration ≠ ""));
      destruct (decide (nangoIntegrationModel.UpdatedAt integration = ""));
      first [reflexivity | exfalso; tauto].
Qed.

(** The answer names the integration and has no timestamp: the name is the
    one of the answer, the timestamp the one of the clock. *)
Lemma C7_Update_witness :
  exists resp' w' state,
    succeeds (Update scripted any_url nango (carrying gh1_plan) resp0)
      (world0 script_update) resp' w'
    /\ tfsdk.State resp' = Some state
    /\ integrationModel.DisplayName state = types.StringValue "GitHub (renamed)"
    /\ integrationModel.UpdatedAt state = types.StringValue "2024-05-01T12:00:00Z".
Proof.
  assert (Hok : succeeds (Update scripted any_url nango (carrying gh1_plan) resp0)
                  (world0 script_update)
                  {| tfsdk.State :=
                       Some {| integrationModel.UniqueKey := types.StringValue "gh1";
                               integrationModel.DisplayName :=
                                 types.StringValue "GitHub (renamed)";
                               integrationModel.NangoProvider := types.StringValue "github";
                               integrationModel.UpdatedAt :=
                                 types.StringValue "2024-05-01T12:00:00Z";
                               integrationModel.Credentials := Some gh1_credentials |};
                     tfsdk.Diagnostics := [] |}
                  {| remote := [];
                     sent := [ patch_request "https://api.nango.dev/integrations/gh1"
                                 (marshalled (Update_request gh1_plan gh1_credentials "repo")) ];
                     now := "2024-05-01T12:00:00Z" |}).
  { split; vm_compute; reflexivity. }
  destruct (C7_Update_display_name_and_updated_at _ _ _ _ _ _ _ _ Hok)
    as (body & response & integration & state & Hpatch & Hdec & Hstate & Hname & Hat).
  eexists _, _, state. split; [exact Hok|]. split; [exact Hstate|].
  simpl in Hstate. inversion Hstate; subst state. split; reflexivity.
Defined.

(** What [Update] hands to the client, whether it succeeds or not: nothing,
    or the PATCH with the marshalled update request. *)
Lemma Update_sent {S} (serve : S -> Request -> S * (string + Response)) url_error
    r req resp (w w' : World S) resp' :
  Update serve url_error r req resp w = Ok resp' w' ->
  let plan := (tfsdk.Get req).2 in
  sent w' = sent w
  \/ exists credentials,
       integrationModel.Credentials plan = Some credentials
       /\ sent w'
           = sent w
             ++ [ patch_request
                    (integration_url (client r)
                       (types.ValueString (integrationModel.UniqueKey plan)))
                    (marshalled
                       (Update_request plan credentials
                          (scopes_string (integrationCredentialModel.Scopes credentials)))) ].
Proof.
  intros Hrun. destruct req as [[diags plan]]. simpl.
  unfold Update in Hrun. simpl in Hrun.
  destruct (HasError _).
  { inversion Hrun; subst. by left. }
  unfold bind in Hrun.
  destruct (integrationModel.Credentials plan) as [credentials|] eqn:Hcred;
    simpl in Hrun; [|discriminate].
  unfold NewRequest in Hrun.
  destruct (url_error _); simpl in Hrun.
  { inversion Hrun; subst. by left. }
  right. exists credentials. split; [reflexivity|].
  unfold client_Do in Hrun.
  destruct (serve (remote w) _) as [s1 [err|response]]; simpl in Hrun.
  { inversion Hrun; subst. reflexivity. }
  destruct (Decode_nangoIntegrationModel (Body response)) as [err|integration].
  { inversion Hrun; subst. reflexivity. }
  destruct (decide (nangoIntegrationModel.UpdatedAt integration ≠ ""));
    unfold ret, time_Now in Hrun; simpl in Hrun;
    inversion Hrun; subst; reflexivity.
Qed.

(** The body of the update request is the body of the create request
    without its [provider] member. *)
Lemma Update_body_is_Create_body_without_provider plan credentials scopesString :
  marshalled (Update_request plan credentials scopesString)
  = without_member "provider" (marshalled (Create_request plan credentials scopesString)).
Proof.
  unfold marshalled, Update_request, Create_request. simpl.
  destruct (types.ValueStringPointer (integrationModel.UniqueKey plan));
    destruct (types.ValueStringPointer (integrationModel.NangoProvider plan));
    reflexivity.
Qed.

(** C6. Whenever [Update] hands a request to the client, it is one PATCH
    whose JSON body has no [provider] member; the body is otherwise the one
    [Create] would send for the plan: [unique_key] (left out, as by
    [Create], when the planned value is null), [display_name] and the whole
    credentials block. *)
Theorem C6_Update_body_omits_provider {S}
    (serve : S -> Request -> S * (string + Response)) url_error
    r req resp (w w' : World S) resp' :
  Update serve url_error r req resp w = Ok resp' w' ->
  sent w' <> sent w ->
  let plan := (tfsdk.Get req).2 in
  exists credentials body,
    integrationModel.Credentials plan = Some credentials
    /\ sent w'
        = sent w
          ++ [ patch_request
                 (baseURL (client r) +:+ "/integrations/"
                  +:+ types.ValueString (integrationModel.UniqueKey plan)) body ]
    /\ members_named "provider" body = []
    /\ body
        = without_member "provider"
            (marshalled
               (Create_request plan credentials
                  (scopes_string (integrationCredentialModel.Scopes credentials))))
    /\ members_named "unique_key" body
        = match types.ValueStringPointer (integrationModel.UniqueKey plan) with
          | Some k => [JString k]
          | None => []
          end
    /\ members_named "display_name" body
        = [JString (types.ValueString (integrationModel.DisplayName plan))]
    /\ members_named "credentials" body
        = [JObject
             [ ("client_id",
                JString (types.ValueString (integrationCredentialModel.ClientId credentials)));
               ("client_secret",
                JString (types.ValueString (integrationCredentialModel.ClientSecret credentials)));
               ("type",
                JString (types.ValueString (integrationCredentialModel.Type_ credentials)));
               ("scopes",
                JString (scopes_string (integrationCredentialModel.Scopes credentials))) ]].
Proof.
  intros Hrun Hsent. simpl.
  destruct (Update_sent _ _ _ _ _ _ _ _ Hrun) as [Hnone|(credentials & Hcred & Hpatch)];
    [contradiction|].
  exists credentials, (marshalled
     (Update_request (tfsdk.Get req).2 credentials
        (scopes_string (integrationCredentialModel.Scopes credentials)))).
  split; [exact Hcred|]. split; [exact Hpatch|].
  split; [|split; [apply Update_body_is_Create_body_without_provider|]].
  - unfold marshalled, Update_request. simpl.
    destruct (types.ValueStringPointer _); reflexivity.
  - unfold marshalled, Update_request. simpl.
    destruct (types.ValueStringPointer _); repeat split; reflexivity.
Qed.

(** The update of the example: the body has no [provider] member. *)
Lemma C6_Update_witness :
  exists resp' w' body,
    Update scripted any_url nango (carrying gh1_plan) resp0 (world0 script_update)
    = Ok resp' w'
    /\ sent w' = [patch_request "https://api.nango.dev/integrations/gh1" body]
    /\ members_named "provider" body = []
    /\ body = JObject [ ("unique_key", JString "gh1");
                        ("display_name", JString "GitHub");
                        ("credentials",
                         JObject [ ("client_id", JString "x");
                                   ("client_secret", JString "y");
                                   ("type", JString "OAUTH2");
                                   ("scopes", JString "repo") ]) ].
Proof.
  assert (Hrun : Update scripted any_url nango (carrying gh1_plan) resp0 (world0 script_update)
                 = Ok {| tfsdk.State :=
                           Some {| integrationModel.UniqueKey := types.StringValue "gh1";
                                   integrationModel.DisplayName :=
                                     types.StringValue "GitHub (renamed)";
                                   integrationModel.NangoProvider := types.StringValue "github";
                                   integrationModel.UpdatedAt :=
                                     types.StringValue "2024-05-01T12:00:00Z";
                                   integrationModel.Credentials := Some gh1_credentials |};
                         tfsdk.Diagnostics := [] |}
                      {| remote := [];
                         sent := [ patch_request "https://api.nango.dev/integrations/gh1"
                                     (marshalled
                                        (Update_request gh1_plan gh1_credentials "repo")) ];
                         now := "2024-05-01T12:00:00Z" |}).
  { vm_compute. reflexivity. }
  assert (Hsent : sent {| remote := ([] : list (string + Response));
                          sent := [ patch_request "https://api.nango.dev/integrations/gh1"
                                      (marshalled
                                         (Update_request gh1_plan gh1_credentials "repo")) ];
                          now := "2024-05-01T12:00:00Z" |}
                  <> sent (world0 script_update)).
  { simpl. discriminate. }
  destruct (C6_Update_body_omits_provider _ _ _ _ _ _ _ _ Hrun Hsent)
    as (credentials & body & Hcred & Hpatch & Hprov & Hbody & _).
  eexists _, _, body. split; [exact Hrun|].
  split; [exact Hpatch|]. split; [exact Hprov|].
  simpl in Hcred. inversion Hcred; subst credentials.
  rewrite Hbody. vm_compute. reflexivity.
Defined.

(* ===================================================================== *)
(** * The data source *)
(* ===================================================================== *)

(** C9. After a successful read of the data source (the GET was answered
    and the body decoded as an envelope with [n] elements) the state holds
    exactly [n] entries, in the order of the envelope; entry [i] has
    [unique_key], [display_name], [nango_provider] and [updated_at] of
    element [i] and no credentials. *)
Theorem C9_DataSource_Read_lists_in_order {S}
    (serve : S -> Request -> S * (string + Response)) url_error
    d resp (w w' : World S) resp' :
  succeeds (DataSource_Read serve url_error d resp) w resp' w' ->
  exists integrationsResponse integrations state,
    serve (remote w) (get_request (baseURL (ds_client d) +:+ "/integrations"))
    = (remote w', inr integrationsResponse)
    /\ Decode_nangoIntegrationResponse (Body integrationsResponse) = inr integrations
    /\ tfsdk.State resp' = Some state
    /\ length (integrationDataSourceModel.Integrations state)
        = length (nangoIntegrationResponse.Data integrations)
    /\ forall (i : nat) (x : nangoIntegrationModel.t),
         nangoIntegrationResponse.Data integrations !! i = Some x ->
         exists e,
           integrationDataSourceModel.Integrations state !! i = Some e
           /\ integrationModel.UniqueKey e
               = types.StringValue (nangoIntegrationModel.UniqueKey x)
           /\ integrationModel.DisplayName e
               = types.StringValue (nangoIntegrationModel.DisplayName x)
           /\ integrationModel.NangoProvider e
               = types.StringValue (nangoIntegrationModel.NangoProvider x)
           /\ integrationModel.UpdatedAt e
               = types.StringValue (nangoIntegrationModel.UpdatedAt x)
           /\ integrationModel.Credentials e = None.
Proof.
  intros Hok. apply DataSource_Read_success_inv in Hok. simpl in Hok.
  destruct Hok as (integrationsResponse & integrations & Hget & Hdec & Hsent & Hnow & ->).
  eexists integrationsResponse, integrations, _.
  split; [exact Hget|]. split; [exact Hdec|]. split; [reflexivity|].
  simpl. split; [apply length_map|].
  intros i x Hx. exists (integ x).
  split; [|repeat split].
  rewrite list_lookup_fmap. by rewrite Hx.
Qed.

(** A list of two integrations gives two entries, in the same order,
    without credentials. *)
Lemma C9_DataSource_Read_witness :
  exists resp' w' first second,
    succeeds (DataSource_Read scripted any_url nango_ds resp0) (world0 script_list) resp' w'
    /\ tfsdk.State resp'
        = Some {| integrationDataSourceModel.Integrations := [first; second] |}
    /\ integrationModel.UniqueKey first = types.StringValue "gh1"
    /\ integrationModel.UniqueKey second = types.StringValue "sl1"
    /\ integrationModel.Credentials first = None
    /\ integrationModel.Credentials second = None.
Proof.
  assert (Hok : succeeds (DataSource_Read scripted any_url nango_ds resp0) (world0 script_list)
                  {| tfsdk.State :=
                       Some {| integrationDataSourceModel.Integrations :=
                                 [ integ {| nangoIntegrationModel.UniqueKey := "gh1";
                                            nangoIntegrationModel.DisplayName := "GitHub";
                                            nangoIntegrationModel.NangoProvider := "github";
                                            nangoIntegrationModel.UpdatedAt :=
                                              "2024-05-01T10:00:00Z" |};
                                   integ {| nangoIntegrationModel.UniqueKey := "sl1";
                                            nangoIntegrationModel.DisplayName := "Slack";
                                            nangoIntegrationModel.NangoProvider := "slack";
                                            nangoIntegrationModel.UpdatedAt :=
                                              "2024-05-02T10:00:00Z" |} ] |};
                     tfsdk.Diagnostics := [] |}
                  {| remote := [];
                     sent := [get_request "https://api.nango.dev/integrations"];
                     now := "2024-05-01T12:00:00Z" |}).
  { split; vm_compute; reflexivity. }
  destruct (C9_DataSource_Read_lists_in_order _ _ _ _ _ _ _ Hok)
    as (integrationsResponse & integrations & state & Hget & Hdec & Hstate & Hlen & Hall).
  eexists _, _, _, _. split; [exact Hok|].
  repeat split; reflexivity.
Defined.

(* ===================================================================== *)
(** * Status codes *)
(* ===================================================================== *)








(* ===================================================================== *)
(** * Scopes *)
(* ===================================================================== *)

(** After a successful [Update] the credentials of the state are the
    planned ones. *)
Lemma Update_keeps_credentials {S} (serve : S -> Request -> S * (string + Response))
    url_error r req resp (w w' : World S) resp' :
  succeeds (Update serve url_error r req resp) w resp' w' ->
  integrationModel.Credentials <$> tfsdk.State resp'
  = Some (integrationModel.Credentials (tfsdk.Get req).2).
Proof.
  intros Hok. apply Update_success_inv in Hok. simpl in Hok.
  destruct Hok as (credentials & body & response & integration & _ & _ & _ & _ & _ & _ & ->).
  reflexivity.
Qed.

(** After a successful [Create] the credentials of the state are the
    planned ones. *)
Lemma Create_keeps_credentials {S} (serve : S -> Request -> S * (string + Response))
    url_error r req resp (w w' : World S) resp' :
  succeeds (Create serve url_error r req resp) w resp' w' ->
  integrationModel.Credentials <$> tfsdk.State resp'
  = Some (integrationModel.Credentials (tfsdk.Get req).2).
Proof.
  intros Hok. apply Create_success_inv in Hok. simpl in Hok.
  destruct Hok as (credentials & body & s1 & postResponse & getResponse & integration
                   & _ & _ & _ & _ & _ & _ & _ & ->).
  reflexivity.
Qed.

(** C8, as stated, fails on the code: the specification has an [unflatten]
    that turns the wire value ["a,b"] back into the list [["a"; "b"]] on
    read. The code has no such step. A plan with the single scope ["a,b"] is created; the
    POST carries the scopes ["a,b"]; the API answers the GET with the
    scopes ["a,b"]; the state holds the list of the plan, with one element,
    and not the list [["a"; "b"]]. *)
Lemma C8_wire_scopes_are_not_read_back :
  exists resp' w' body,
    succeeds (Create scripted any_url nango (carrying comma_plan) resp0)
      (world0 script_comma) resp' w'
    /\ sent w'
        = [ post_request "https://api.nango.dev/integrations" body;
            get_request
              "https://api.nango.dev/integrations/gh1?include=webhook&include=credentials" ]
    /\ (members_named "credentials" body ≫= members_named "scopes") = [JString "a,b"]
    /\ state_scopes (tfsdk.State resp') = Some (types.ListValue [types.StringValue "a,b"])
    /\ state_scopes (tfsdk.State resp')
        <> Some (types.ListValue [types.StringValue "a"; types.StringValue "b"]).
Proof.
  eexists _, _, _. unfold succeeds.
  repeat split; try (vm_compute; reflexivity). vm_compute. discriminate.
Qed.

(** C8, amended. The flattening of [Create] and [Update] joins two scopes
    with one comma and nothing else, so [flatten ["a"; "b"] = "a,b"]; the
    empty list and the absent (null) list both give [""]. This string is
    the [scopes] of the credentials in the body of the POST and of the
    PATCH. Nothing is read back: after a successful [Create] or [Update]
    the credentials of the state, scopes included, are those of the plan. *)
Theorem C8_scopes_are_flattened_and_never_read_back :
  (forall a b : string,
     scopes_string (types.ListValue [types.StringValue a; types.StringValue b])
     = a +:+ "," +:+ b)
  /\ scopes_string (types.ListValue [types.StringValue "a"; types.StringValue "b"]) = "a,b"
  /\ scopes_string (types.ListValue []) = ""
  /\ scopes_string types.ListNull = ""
  /\ (forall S (serve : S -> Request -> S * (string + Response)) url_error
             r req resp (w w' : World S) resp',
        succeeds (Create serve url_error r req resp) w resp' w' ->
        exists credentials body,
          integrationModel.Credentials (tfsdk.Get req).2 = Some credentials
          /\ nth_error (sent w') (length (sent w)) = Some
               (post_request (integrations_url (client r)) body)
          /\ (members_named "credentials" body ≫= members_named "scopes")
              = [JString (scopes_string (integrationCredentialModel.Scopes credentials))]
          /\ integrationModel.Credentials <$> tfsdk.State resp' = Some (Some credentials))
  /\ (forall S (serve : S -> Request -> S * (string + Response)) url_error
             r req resp (w w' : World S) resp',
        succeeds (Update serve url_error r req resp) w resp' w' ->
        exists credentials body,
          integrationModel.Credentials (tfsdk.Get req).2 = Some credentials
          /\ nth_error (sent w') (length (sent w)) = Some
               (patch_request
                  (integration_url (client r)
                     (types.ValueString (integrationModel.UniqueKey (tfsdk.Get req).2))) body)
          /\ (members_named "credentials" body ≫= members_named "scopes")
              = [JString (scopes_string (integrationCredentialModel.Scopes credentials))]
          /\ integrationModel.Credentials <$> tfsdk.State resp' = Some (Some credentials)).
Proof.
  split; [reflexivity|]. split; [reflexivity|]. split; [reflexivity|].
  split; [reflexivity|]. split.
  - intros S serve url_error r req resp w w' resp' Hok.
    pose proof (Create_keeps_credentials _ _ _ _ _ _ _ _ Hok) as Hkeep.
    apply Create_success_inv in Hok. simpl in Hok.
    destruct Hok as (credentials & body & s1 & postResponse & getResponse & integration
                     & Hcred & Hbody & _ & _ & _ & Hsent & _ & _).
    exists credentials, body. split; [exact Hcred|].
    split; [|split].
    + rewrite Hsent, nth_error_app2 by reflexivity.
      by rewrite Nat.sub_diag.
    + inversion Hbody; subst body.
      destruct (types.ValueStringPointer (integrationModel.UniqueKey (tfsdk.Get req).2));
        destruct (types.ValueStringPointer (integrationModel.NangoProvider (tfsdk.Get req).2));
        reflexivity.
    + by rewrite Hkeep, Hcred.
  - intros S serve url_error r req resp w w' resp' Hok.
    pose proof (Update_keeps_credentials _ _ _ _ _ _ _ _ Hok) as Hkeep.
    apply Update_success_inv in Hok. simpl in Hok.
    destruct Hok as (credentials & body & response & integration
                     & Hcred & Hbody & _ & _ & Hsent & _ & _).
    exists credentials, body. split; [exact Hcred|].
    split; [|split].
    + rewrite Hsent, nth_error_app2 by reflexivity.
      by rewrite Nat.sub_diag.
    + inversion Hbody; subst body.
      destruct (types.ValueStringPointer (integrationModel.UniqueKey (tfsdk.Get req).2));
        reflexivity.
    + by rewrite Hkeep, Hcred.
Qed.

(** The example of the specification: the scopes [["repo"]] go out as
    ["repo"] and the state keeps the list of the plan. *)
Lemma C8_scopes_witness :
  exists resp' w' body,
    succeeds (Create scripted any_url nango (carrying gh1_plan) resp0)
      (world0 script_gh1) resp' w'
    /\ nth_error (sent w') 0 = Some (post_request "https://api.nango.dev/integrations" body)
    /\ (members_named "credentials" body ≫= members_named "scopes") = [JString "repo"]
    /\ state_scopes (tfsdk.State resp') = Some (types.ListValue [types.StringValue "repo"]).
Proof.
  assert (Hok : succeeds (Create scripted any_url nango (carrying gh1_plan) resp0)
                  (world0 script_gh1)
                  {| tfsdk.State := Some gh1_state; tfsdk.Diagnostics := [] |}
                  {| remote := [];
                     sent := [ post_request "https://api.nango.dev/integrations"
                                 (marshalled (Create_request gh1_plan gh1_credentials "repo"));
                               get_request
                                 "https://api.nango.dev/integrations/gh1?include=webhook&include=credentials" ];
                     now := "2024-05-01T12:00:00Z" |}).
  { split; vm_compute; reflexivity. }
  destruct C8_scopes_are_flattened_and_never_read_back as (_ & _ & _ & _ & HCreate & _).
  destruct (HCreate _ _ _ _ _ _ _ _ _ Hok) as (credentials & body & Hcred & Hpost & Hscopes & Hkeep).
  simpl in Hcred. inversion Hcred; subst credentials.
  eexists _, _, body. split; [exact Hok|].
  split; [exact Hpost|]. split; [exact Hscopes|]. reflexivity.
Defined.

(* ===================================================================== *)
(** * Trimming the host *)
(* ===================================================================== *)

Lemma append_cons (c : ascii) (s t : string) : String c s +:+ t = String c (s +:+ t).
Proof. reflexivity. Qed.

Lemma append_empty_l (t : string) : "" +:+ t = t.
Proof. reflexivity. Qed.

Lemma append_empty_r (s : string) : s +:+ "" = s.
Proof.
  induction s as [|c s IH]; [reflexivity|].
  by rewrite append_cons, IH.
Qed.

Lemma append_assoc (a b c : string) : (a +:+ b) +:+ c = a +:+ (b +:+ c).
Proof.
  induction a as [|x a IH]; [reflexivity|].
  by rewrite !append_cons, IH.
Qed.

Lemma TrimRight_slashes (k : nat) : strings_TrimRight (slashes k) "/" = "".
Proof. induction k as [|k IH]; simpl; [reflexivity | by rewrite IH]. Qed.

(** What [TrimRight] cuts off are slashes, and only at the end. *)
Lemma TrimRight_slash_split (s : string) :
  exists k, s = strings_TrimRight s "/" +:+ slashes k.
Proof.
  induction s as [|c s [k IH]]; simpl.
  - by exists 0.
  - destruct (strings_TrimRight s "/") as [|c' kept] eqn:Hkept.
    + rewrite append_empty_l in IH.
      destruct (decide (c = "/"%char)) as [->|Hc].
      * exists (S k). rewrite append_empty_l. simpl. by rewrite <- IH.
      * exists k. rewrite append_cons, append_empty_l. by rewrite <- IH.
    + exists k. rewrite append_cons. by rewrite <- IH.
Qed.

(** What [TrimRight] leaves does not end with a slash. *)
Lemma TrimRight_slash_no_trailing (s p : string) :
  strings_TrimRight s "/" <> p +:+ "/".
Proof.
  revert p. induction s as [|c s IH]; intros p; simpl.
  - destruct p; discriminate.
  - destruct (strings_TrimRight s "/") as [|c' kept] eqn:Hkept.
    + destruct (decide (c = "/"%char)) as [->|Hc].
      * destruct p; discriminate.
      * destruct p as [|c0 [|c1 p]]; [| discriminate | discriminate].
        rewrite append_empty_l. congruence.
    + destruct p as [|c0 p]; [discriminate|].
      rewrite append_cons. intros Heq. injection Heq as _ Heq. by apply (IH p).
Qed.

(** A string that does not end with a slash is what [TrimRight] leaves of
    it followed by any number of slashes. *)
Lemma TrimRight_slash_append (base : string) (k : nat) :
  (forall p, base <> p +:+ "/") ->
  strings_TrimRight (base +:+ slashes k) "/" = base.
Proof.
  induction base as [|c base IH]; intros Hbase.
  - rewrite append_empty_l. apply TrimRight_slashes.
  - rewrite append_cons. simpl. destruct base as [|c' base].
    + rewrite append_empty_l, TrimRight_slashes.
      destruct (decide (c = "/"%char)) as [->|Hc]; [|reflexivity].
      exfalso. by apply (Hbase "").
    + rewrite IH; [reflexivity|].
      intros p Hp. apply (Hbase (String c p)). by rewrite append_cons, Hp.
Qed.

(* ===================================================================== *)
(** * The configuration of the provider *)
(* ===================================================================== *)

(** The two ways [Configure] ends: with an error and no client, or with
    the client built from the key and the host, handed to both the data
    sources and the resources. *)
Lemma Provider_Configure_cases getenv req ds :
  let config := (tfsdk.Get req).2 in
  let resp' := Provider_Configure getenv req (Configure_resp0 ds) in
  (HasError (Configure_Diagnostics resp') = true
   /\ DataSourceData resp' = None /\ ResourceData resp' = None)
  \/ (HasError (Configure_Diagnostics resp') = false
      /\ Configure_Diagnostics resp' = Append ds (tfsdk.Get req).1
      /\ String_IsUnknown (nangoProviderMdoel.EnvironmentKey config) = false
      /\ Configure_environmentKey getenv config <> ""
      /\ DataSourceData resp' = ResourceData resp'
      /\ ResourceData resp'
         = Some {| retryClient :=
                     {| RetryMax := 3; RetryWaitMin := 1; RetryWaitMax := 5;
                        HTTPClient_Timeout := 30;
                        HTTPClient_Transport :=
                          {| authKey := Configure_environmentKey getenv config |} |};
                   handle := {| baseURL := Configure_host getenv config |} |}).
Proof.
  destruct req as [[diags config]]. simpl. unfold Provider_Configure. simpl.
  destruct (HasError (Append ds diags)) eqn:Hds.
  { left. simpl. by rewrite Hds. }
  destruct (String_IsUnknown (nangoProviderMdoel.EnvironmentKey config)) eqn:Hunk.
  { left. unfold Configure_AddError. simpl. by rewrite HasError_AddError. }
  destruct (decide (Configure_environmentKey getenv config = "")) as [Hempty|Hkey].
  { left. unfold Configure_AddError. simpl. by rewrite HasError_AddError. }
  right. simpl. by rewrite Hds.
Qed.

(** X1. [Configure] hands a client over exactly when its diagnostics hold
    no error, and then it is one and the same client for the data sources
    and for the resources: a missing, unknown or empty key leaves both
    without a client. *)
Theorem Configure_client_iff_no_error getenv req ds :
  let resp' := Provider_Configure getenv req (Configure_resp0 ds) in
  DataSourceData resp' = ResourceData resp'
  /\ (HasError (Configure_Diagnostics resp') = false <-> is_Some (ResourceData resp')).
Proof.
  simpl. destruct (Provider_Configure_cases getenv req ds)
    as [(Herr & Hd & Hr)|(Hok & _ & _ & _ & Hsame & Hr)].
  - rewrite Hd, Hr, Herr. split; [reflexivity|].
    split; [discriminate | intros [nc Hnc]; discriminate].
  - rewrite Hsame, Hr, Hok. split; [reflexivity|]. split; [eauto | reflexivity].
Qed.

Lemma Configure_client_iff_no_error_witness :
  is_Some (ResourceData (Provider_Configure no_env (carrying hosted_config) (Configure_resp0 []))).
Proof.
  apply (proj2 (Configure_client_iff_no_error no_env (carrying hosted_config) [])).
  vm_compute. reflexivity.
Defined.

(** X2. The key of the transport of the client [Configure] hands over is
    never empty; it is the configured [environment_key] when that is set,
    even if [NANGO_ENVIRONMENT_KEY] is set too, and the environment
    variable only when the configured value is null. *)
Theorem Configure_key_precedence getenv req ds nc :
  ResourceData (Provider_Configure getenv req (Configure_resp0 ds)) = Some nc ->
  let key := nangoProviderMdoel.EnvironmentKey (tfsdk.Get req).2 in
  let authKey := authKey (HTTPClient_Transport (retryClient nc)) in
  authKey <> ""
  /\ key <> types.StringUnknown
  /\ (forall k, key = types.StringValue k -> authKey = k)
  /\ (key = types.StringNull -> authKey = getenv "NANGO_ENVIRONMENT_KEY").
Proof.
  intros Hnc. simpl.
  destruct (Provider_Configure_cases getenv req ds)
    as [(_ & _ & Hr)|(_ & _ & Hunk & Hkey & _ & Hr)]; [congruence|].
  rewrite Hr in Hnc. inversion Hnc; subst nc; clear Hnc. simpl.
  split; [exact Hkey|]. split; [by intros Heq; rewrite Heq in Hunk|].
  unfold Configure_environmentKey.
  split; [intros k Hk | intros Hnull]; by rewrite ?Hk, ?Hnull.
Qed.

Lemma Configure_key_precedence_witness :
  exists nc,
    ResourceData (Provider_Configure full_env (carrying hosted_config) (Configure_resp0 []))
    = Some nc
    /\ authKey (HTTPClient_Transport (retryClient nc)) = "secret".
Proof.
  eexists. split; [reflexivity|].
  exact (proj1 (proj2 (proj2
    (Configure_key_precedence full_env (carrying hosted_config) [] _ eq_refl)))
    "secret" eq_refl).
Defined.

(** X3. The base URL of the client [Configure] hands over never ends with
    a slash, and it is the configured host, the host of [NANGO_HOST] or the
    default host without its trailing slashes. *)
Theorem Configure_baseURL_has_no_trailing_slash getenv req ds nc :
  ResourceData (Provider_Configure getenv req (Configure_resp0 ds)) = Some nc ->
  (forall p, baseURL (handle nc) <> p +:+ "/")
  /\ exists k,
       let host := baseURL (handle nc) +:+ slashes k in
       host = types.ValueString (nangoProviderMdoel.Host (tfsdk.Get req).2)
       \/ host = getenv "NANGO_HOST"
       \/ host = "https://api.nango.dev".
Proof.
  intros Hnc.
  destruct (Provider_Configure_cases getenv req ds)
    as [(_ & _ & Hr)|(_ & _ & _ & _ & _ & Hr)]; [congruence|].
  rewrite Hr in Hnc. inversion Hnc; subst nc; clear Hnc. simpl.
  split; [intros p; apply TrimRight_slash_no_trailing|].
  unfold Configure_host.
  match goal with |- context [strings_TrimRight ?h "/"] => set (host := h) end.
  destruct (TrimRight_slash_split host) as [k Hk]. exists k. rewrite <- Hk.
  subst host. destruct (decide _); [by right; right|].
  destruct (negb _ && negb _); [by left | by right; left].
Qed.

Lemma Configure_baseURL_witness :
  exists nc,
    ResourceData (Provider_Configure no_env (carrying hosted_config) (Configure_resp0 []))
    = Some nc
    /\ baseURL (handle nc) = "https://nango.example.com"
    /\ forall p, baseURL (handle nc) <> p +:+ "/".
Proof.
  eexists. split; [reflexivity|]. split; [reflexivity|].
  exact (proj1 (Configure_baseURL_has_no_trailing_slash no_env (carrying hosted_config) []
                  _ eq_refl)).
Defined.

(** X4. Which host is used by the client [Configure] hands over: a
    configured host that is the empty string gives the default URL even
    when [NANGO_HOST] is set; a null or unknown configured host gives
    [NANGO_HOST] without its trailing slashes, and the default URL when
    that variable is unset or empty. *)
Theorem Configure_host_fallback getenv req ds nc :
  ResourceData (Provider_Configure getenv req (Configure_resp0 ds)) = Some nc ->
  let host := nangoProviderMdoel.Host (tfsdk.Get req).2 in
  (host = types.StringValue "" -> baseURL (handle nc) = "https://api.nango.dev")
  /\ (host = types.StringNull \/ host = types.StringUnknown ->
      baseURL (handle nc)
      = if decide (getenv "NANGO_HOST" = "") then "https://api.nango.dev"
        else strings_TrimRight (getenv "NANGO_HOST") "/").
Proof.
  intros Hnc.
  destruct (Provider_Configure_cases getenv req ds)
    as [(_ & _ & Hr)|(_ & _ & _ & _ & _ & Hr)]; [congruence|].
  rewrite Hr in Hnc. inversion Hnc; subst nc; clear Hnc. simpl.
  unfold Configure_host. split.
  - intros ->. reflexivity.
  - intros [-> | ->]; simpl; by destruct (decide _).
Qed.

Lemma Configure_host_fallback_witness :
  exists nc,
    ResourceData
      (Provider_Configure full_env
         (carrying {| nangoProviderMdoel.EnvironmentKey := types.StringNull;
                      nangoProviderMdoel.Host := types.StringValue "" |})
         (Configure_resp0 [])) = Some nc
    /\ authKey (HTTPClient_Transport (retryClient nc)) = "env-key"
    /\ baseURL (handle nc) = "https://api.nango.dev".
Proof.
  eexists. split; [reflexivity|]. split; [reflexivity|].
  exact (proj1 (Configure_host_fallback full_env
                  (carrying {| nangoProviderMdoel.EnvironmentKey := types.StringNull;
                               nangoProviderMdoel.Host := types.StringValue "" |})
                  [] _ eq_refl) eq_refl).
Defined.



(* ===================================================================== *)
(** * The transport: what it leaves alone *)
(* ===================================================================== *)

(** X6. Apart from the Authorization header [RoundTrip] is transparent:
    the wrapped transport is called once, with the same method, URL, body
    and other headers; its error, or its response with the same status and
    body, is what [RoundTrip] returns. *)
Theorem RoundTrip_is_transparent {N} (next : N -> Request -> N * (string + Response))
    (t : myTransport) (req : Request) (n : N) :
  let req' := (RoundTrip next t req n).1.1 in
  Method req' = Method req
  /\ URL req' = URL req
  /\ ReqBody req' = ReqBody req
  /\ (forall key, key <> "Authorization" -> Header req' !! key = Header req !! key)
  /\ next n req' = ((RoundTrip next t req n).1.2, (RoundTrip next t req n).2).
Proof.
  unfold RoundTrip.
  destruct (next n _) as [n' [err|[status body]]] eqn:Hnext; simpl;
    (repeat split; try reflexivity;
     [ intros key Hkey; unfold Header_Add; by rewrite lookup_insert_ne
     | exact Hnext ]).
Qed.

Lemma RoundTrip_is_transparent_witness :
  Header (RoundTrip scripted {| authKey := "k" |}
            (post_request "https://api.nango.dev/integrations" JNull) []).1.1
    !! "Content-Type" = Some ["application/json"].
Proof.
  rewrite (proj1 (proj2 (proj2 (proj2
            (RoundTrip_is_transparent scripted {| authKey := "k" |}
               (post_request "https://api.nango.dev/integrations" JNull) []))))
            "Content-Type" ltac:(discriminate)).
  reflexivity.
Defined.

(** X7. A request handed [k] times to the transport carries, after its
    own Authorization values, [k] copies of the bearer credential: every
    pass adds one more. *)
Theorem RoundTrips_Authorization_grows {N} (next : N -> Request -> N * (string + Response))
    (t : myTransport) (k : nat) (req : Request) (n : N) :
  Header_Values (Header (RoundTrips next t k req n).1) "Authorization"
  = Header_Values (Header req) "Authorization" ++ replicate k ("Bearer " +:+ authKey t).
Proof.
  revert req n. induction k as [|k IH]; intros req n; simpl.
  - by rewrite app_nil_r.
  - pose proof (RoundTrip_Authorization_values next t req n) as Hone.
    destruct (RoundTrip next t req n) as [[req' n'] r]. simpl in Hone.
    rewrite IH, Hone, <- app_assoc. reflexivity.
Qed.

(* ===================================================================== *)
(** * Answers without a [data] member *)
(* ===================================================================== *)

Lemma fold_left_skip {A} (f : A -> string * JSON -> A) (ms : list (string * JSON)) (acc : A) :
  Forall (fun kv => f acc kv = acc) ms -> fold_left f ms acc = acc.
Proof.
  induction 1 as [|kv ms Hkv _ IH]; simpl; [reflexivity|].
  by rewrite Hkv.
Qed.

Lemma Decode_nanogoIntegrationResponse2_no_data (ms : list (string * JSON)) :
  no_data_member ms ->
  Decode_nanogoIntegrationResponse2 (Some (JObject ms)) = inr nanogoIntegrationResponse2.zero.
Proof.
  intros Hms. unfold Decode_nanogoIntegrationResponse2.
  rewrite fold_left_skip; [reflexivity|].
  eapply Forall_impl; [exact Hms|]. intros kv Hkv. simpl in *.
  by destruct (decide (foldName kv.1 = "data")).
Qed.

Lemma Decode_nangoIntegrationResponse_no_data (ms : list (string * JSON)) :
  no_data_member ms ->
  Decode_nangoIntegrationResponse (Some (JObject ms)) = inr nangoIntegrationResponse.zero.
Proof.
  intros Hms. unfold Decode_nangoIntegrationResponse.
  rewrite fold_left_skip; [reflexivity|].
  eapply Forall_impl; [exact Hms|]. intros kv Hkv. simpl in *.
  by destruct (decide (foldName kv.1 = "data")).
Qed.

#[global] Arguments Decode_nanogoIntegrationResponse2 : simpl never.
#[global] Arguments Decode_nangoIntegrationResponse : simpl never.
#[global] Arguments Decode_nangoIntegrationModel : simpl never.

(** X8. When the client hands back, as the answer to the GET of [Create],
    a JSON object that has no [data] member (an error document, say),
    whatever the status it comes with (404, for one: the client hands back
    no response with a status it retries), [Create] succeeds without a
    diagnostic and writes a state whose [unique_key] and [updated_at] are
    the empty string; the rest is the plan. *)
Theorem Create_on_answer_without_data {S}
    (serve : S -> Request -> S * (string + Response)) url_error
    r req resp (w : World S) credentials s1 s2 postResponse code ms :
  let plan := (tfsdk.Get req).2 in
  let post := post_request (integrations_url (client r))
                (marshalled (Create_request plan credentials
                   (scopes_string (integrationCredentialModel.Scopes credentials)))) in
  let get := get_request (integration_url_full (client r)
               (types.ValueString (integrationModel.UniqueKey plan))) in
  HasError (Append (tfsdk.Diagnostics resp) (tfsdk.Get req).1) = false ->
  integrationModel.Credentials plan = Some credentials ->
  url_error (URL post) = None ->
  url_error (URL get) = None ->
  serve (remote w) post = (s1, inr postResponse) ->
  serve s1 get = (s2, inr {| StatusCode := code; Body := Some (JObject ms) |}) ->
  no_data_member ms ->
  Create serve url_error r req resp w
  = Ok {| tfsdk.State :=
            Some {| integrationModel.UniqueKey := types.StringValue "";
                    integrationModel.DisplayName := integrationModel.DisplayName plan;
                    integrationModel.NangoProvider := integrationModel.NangoProvider plan;
                    integrationModel.UpdatedAt := types.StringValue "";
                    integrationModel.Credentials := Some credentials |};
          tfsdk.Diagnostics := Append (tfsdk.Diagnostics resp) (tfsdk.Get req).1 |}
       {| remote := s2; sent := sent w ++ [post; get]; now := now w |}.
Proof.
  destruct req as [[diags plan]]. simpl.
  intros Hplan Hcred Hu1 Hu2 Hpost Hget Hms.
  unfold Create. simpl.
  unfold tfsdk.Diagnostics_Append at 1. simpl. rewrite Hplan.
  unfold bind. rewrite Hcred. simpl.
  unfold client_Post, NewRequest.
  fold (integrations_url (client r)). rewrite Hu1.
  unfold client_Do at 1.
  unfold post_request, marshalled in Hpost. simpl in Hpost.
  unfold Request_Header_Set, Header_Set. simpl. rewrite Hpost. simpl.
  unfold client_Get, NewRequest.
  fold (integration_url_full (client r)
          (types.ValueString (integrationModel.UniqueKey plan))).
  rewrite Hu2. unfold client_Do. simpl.
  unfold get_request in Hget. rewrite Hget. simpl.
  rewrite (Decode_nanogoIntegrationResponse2_no_data ms Hms).
  unfold ret. rewrite set_state_eq, <- app_assoc. reflexivity.
Qed.

(** The API answers 404 with an error document, behind the retrying
    client. *)
Lemma Create_on_answer_without_data_witness :
  exists state w',
    Create (retryablehttp_Do scripted secret_client all_recoverable) any_url
      nango (carrying gh1_plan) resp0 (world0 script_404)
    = Ok {| tfsdk.State := Some state; tfsdk.Diagnostics := [] |} w'
    /\ integrationModel.UniqueKey state = types.StringValue ""
    /\ integrationModel.UpdatedAt state = types.StringValue "".
Proof.
  eexists _, _. split.
  - refine (Create_on_answer_without_data
              (retryablehttp_Do scripted secret_client all_recoverable) any_url
              nango (carrying gh1_plan) resp0
              (world0 script_404) gh1_credentials [reply 404 error_body] []
              {| StatusCode := 404; Body := Some error_body |} 404
              [("error", JObject [("code", JString "server_error")])]
              eq_refl eq_refl eq_refl eq_refl eq_refl eq_refl _).
    repeat constructor. vm_compute. discriminate.
  - split; reflexivity.
Defined.

(** X9. When the client hands back, as the answer to the list request, a
    JSON object that has no [data] member, whatever the status it comes
    with (404, for one), the data source adds no diagnostic and sets a
    state whose slice has no element: nothing was appended, the slice is
    nil and the attribute [integrations] of the state is null. *)
Theorem DataSource_Read_on_answer_without_data {S}
    (serve : S -> Request -> S * (string + Response)) url_error
    d resp (w : World S) s1 code ms :
  let get := get_request (integrations_url (ds_client d)) in
  url_error (URL get) = None ->
  serve (remote w) get = (s1, inr {| StatusCode := code; Body := Some (JObject ms) |}) ->
  no_data_member ms ->
  exists state,
    DataSource_Read serve url_error d resp w
    = Ok {| tfsdk.State := Some state; tfsdk.Diagnostics := tfsdk.Diagnostics resp |}
         {| remote := s1; sent := sent w ++ [get]; now := now w |}
    /\ integrationDataSourceModel.Integrations state = []
    /\ integrations_attribute state = tfList_Null.
Proof.
  simpl. intros Hu Hget Hms.
  exists {| integrationDataSourceModel.Integrations := [] |}.
  split; [|split; reflexivity].
  unfold DataSource_Read, bind, client_Get, NewRequest.
  fold (integrations_url (ds_client d)). rewrite Hu. unfold client_Do.
  unfold get_request in Hget. rewrite Hget. simpl.
  rewrite (Decode_nangoIntegrationResponse_no_data ms Hms).
  unfold ret. rewrite set_state_eq. reflexivity.
Qed.

(** The API answers 404 with an error document, behind the retrying
    client. *)
Lemma DataSource_Read_on_answer_without_data_witness :
  exists state w',
    DataSource_Read (retryablehttp_Do scripted secret_client all_recoverable) any_url
      nango_ds resp0 (world0 script_404)
    = Ok {| tfsdk.State := Some state; tfsdk.Diagnostics := [] |} w'
    /\ integrations_attribute state = tfList_Null.
Proof.
  destruct (DataSource_Read_on_answer_without_data
              (retryablehttp_Do scripted secret_client all_recoverable) any_url
              nango_ds resp0 (world0 script_404) [reply 404 error_body] 404
              [("error", JObject [("code", JString "server_error")])]
              eq_refl eq_refl)
    as (state & Hrun & _ & Hnull).
  { repeat constructor. vm_compute. discriminate. }
  exists state. eexists. split; [exact Hrun | exact Hnull].
Defined.

(* ===================================================================== *)
(** * Failures *)
(* ===================================================================== *)

Section Failures.

Context {S : Type}.
Variable serve : S -> Request -> S * (string + Response).
Variable url_error : string -> option string.

(** Every way through an operation: the cases of its tests, one by one. *)
Ltac run_cases Hrun :=
  repeat match type of Hrun with
         | context [match ?x with _ => _ end] =>
             match x with
             | context [match _ with _ => _ end] => fail 1
             | _ => destruct x eqn:?; simpl in Hrun
             end
         end.

Lemma Create_failure_keeps_state r req resp (w w' : World S) resp' :
  Create serve url_error r req resp w = Ok resp' w' ->
  HasError (tfsdk.Diagnostics resp') = true ->
  tfsdk.State resp' = tfsdk.State resp.
Proof.
  intros Hrun Herr. destruct req as [[diags plan]].
  unfold Create in Hrun. simpl in Hrun.
  unfold tfsdk.Diagnostics_Append in Hrun at 1. simpl in Hrun.
  destruct (HasError (Append (tfsdk.Diagnostics resp) diags)) eqn:Hplan.
  { inversion Hrun; subst. reflexivity. }
  unfold bind, client_Post, client_Get, client_Do, ret in Hrun.
  run_cases Hrun; try discriminate;
    inversion Hrun; subst; clear Hrun; try reflexivity.
  rewrite set_state_eq in Herr. simpl in Herr. congruence.
Qed.

Lemma Read_failure_keeps_state r req resp (w w' : World S) resp' :
  Read serve url_error r req resp w = Ok resp' w' ->
  HasError (tfsdk.Diagnostics resp') = true ->
  tfsdk.State resp' = tfsdk.State resp.
Proof.
  intros Hrun Herr. destruct req as [[diags state]].
  unfold Read in Hrun. simpl in Hrun.
  unfold tfsdk.Diagnostics_Append in Hrun at 1. simpl in Hrun.
  destruct (HasError (Append (tfsdk.Diagnostics resp) diags)) eqn:Hstate.
  { inversion Hrun; subst. reflexivity. }
  unfold bind, client_Get, client_Do, ret in Hrun.
  run_cases Hrun; try discriminate;
    inversion Hrun; subst; clear Hrun; try reflexivity.
  rewrite set_state_eq in Herr. simpl in Herr. congruence.
Qed.

Lemma Update_failure_keeps_state r req resp (w w' : World S) resp' :
  Update serve url_error r req resp w = Ok resp' w' ->
  HasError (tfsdk.Diagnostics resp') = true ->
  tfsdk.State resp' = tfsdk.State resp.
Proof.
  intros Hrun Herr. destruct req as [[diags plan]].
  unfold Update in Hrun. simpl in Hrun.
  unfold tfsdk.Diagnostics_Append in Hrun at 1. simpl in Hrun.
  destruct (HasError (Append (tfsdk.Diagnostics resp) diags)) eqn:Hplan.
  { inversion Hrun; subst. reflexivity. }
  unfold bind, client_Do, ret, time_Now in Hrun.
  run_cases Hrun; try discriminate;
    inversion Hrun; subst; clear Hrun; try reflexivity;
    rewrite set_state_eq in Herr; simpl in Herr; congruence.
Qed.

Lemma DataSource_Read_failure_keeps_state d resp (w w' : World S) resp' :
  DataSource_Read serve url_error d resp w = Ok resp' w' ->
  HasError (tfsdk.Diagnostics resp) = false ->
  HasError (tfsdk.Diagnostics resp') = true ->
  tfsdk.State resp' = tfsdk.State resp.
Proof.
  intros Hrun Hresp Herr.
  unfold DataSource_Read, bind, client_Get, client_Do, ret in Hrun.
  run_cases Hrun; try discriminate;
    inversion Hrun; subst; clear Hrun; try reflexivity.
  rewrite set_state_eq in Herr. simpl in Herr. congruence.
Qed.

(** What [Create] hands to the client, whether it succeeds or not: nothing,
    the POST alone, or the POST and then the GET; the GET only when the
    POST was answered. *)
Lemma Create_sent r req resp (w w' : World S) resp' :
  Create serve url_error r req resp w = Ok resp' w' ->
  let plan := (tfsdk.Get req).2 in
  sent w' = sent w
  \/ exists credentials,
       let post := post_request (integrations_url (client r))
                     (marshalled (Create_request plan credentials
                        (scopes_string (integrationCredentialModel.Scopes credentials)))) in
       let get := get_request (integration_url_full (client r)
                    (types.ValueString (integrationModel.UniqueKey plan))) in
       integrationModel.Credentials plan = Some credentials
       /\ (sent w' = sent w ++ [post]
           \/ (sent w' = sent w ++ [post; get]
               /\ exists s1 postResponse, serve (remote w) post = (s1, inr postResponse))).
Proof.
  intros Hrun. destruct req as [[diags plan]]. simpl.
  unfold Create in Hrun. simpl in Hrun.
  destruct (HasError _).
  { inversion Hrun; subst. by left. }
  unfold bind in Hrun.
  destruct (integrationModel.Credentials plan) as [credentials|] eqn:Hcred;
    simpl in Hrun; [|discriminate].
  unfold client_Post, NewRequest in Hrun.
  destruct (url_error _); simpl in Hrun.
  { inversion Hrun; subst. by left. }
  right. exists credentials. split; [reflexivity|].
  unfold client_Do in Hrun at 1.
  unfold Request_Header_Set, Header_Set in Hrun. simpl in Hrun.
  unfold post_request, marshalled. simpl.
  destruct (serve (remote w) _) as [s1 [err|postResponse]] eqn:Hpost; simpl in Hrun.
  { inversion Hrun; subst. by left. }
  unfold client_Get, NewRequest in Hrun.
  destruct (url_error _); simpl in Hrun.
  { inversion Hrun; subst. by left. }
  right. split; [|by exists s1, postResponse].
  unfold client_Do in Hrun. simpl in Hrun.
  destruct (serve s1 _) as [s2 [gErr|getResponse]]; simpl in Hrun.
  { inversion Hrun; subst. simpl. by rewrite <- app_assoc. }
  destruct (Decode_nanogoIntegrationResponse2 (Body getResponse)).
  { inversion Hrun; subst. simpl. by rewrite <- app_assoc. }
  unfold ret in Hrun. inversion Hrun; subst. simpl. by rewrite <- app_assoc.
Qed.

(** [Create] after the POST was answered, when the GET fails or its answer
    does not decode. *)
Lemma Create_GET_fails r req resp (w : World S) credentials s1 s2 postResponse gErr :
  let plan := (tfsdk.Get req).2 in
  let post := post_request (integrations_url (client r))
                (marshalled (Create_request plan credentials
                   (scopes_string (integrationCredentialModel.Scopes credentials)))) in
  let get := get_request (integration_url_full (client r)
               (types.ValueString (integrationModel.UniqueKey plan))) in
  HasError (Append (tfsdk.Diagnostics resp) (tfsdk.Get req).1) = false ->
  integrationModel.Credentials plan = Some credentials ->
  url_error (URL post) = None ->
  url_error (URL get) = None ->
  serve (remote w) post = (s1, inr postResponse) ->
  serve s1 get = (s2, inl gErr) ->
  Create serve url_error r req resp w
  = Ok {| tfsdk.State := tfsdk.State resp;
          tfsdk.Diagnostics :=
            AddError (Append (tfsdk.Diagnostics resp) (tfsdk.Get req).1)
              "Unable to Get Integration" gErr |}
       {| remote := s2; sent := sent w ++ [post; get]; now := now w |}.
Proof.
  destruct req as [[diags plan]]. simpl.
  intros Hplan Hcred Hu1 Hu2 Hpost Hget.
  unfold Create. simpl.
  unfold tfsdk.Diagnostics_Append at 1. simpl. rewrite Hplan.
  unfold bind. rewrite Hcred. simpl.
  unfold client_Post, NewRequest.
  fold (integrations_url (client r)). rewrite Hu1.
  unfold client_Do at 1.
  unfold post_request, marshalled in Hpost. simpl in Hpost.
  unfold Request_Header_Set, Header_Set. simpl. rewrite Hpost. simpl.
  unfold client_Get, NewRequest.
  fold (integration_url_full (client r)
          (types.ValueString (integrationModel.UniqueKey plan))).
  rewrite Hu2. unfold client_Do. simpl.
  unfold get_request in Hget. rewrite Hget. simpl.
  unfold ret. rewrite <- app_assoc. reflexivity.
Qed.

Lemma Create_GET_does_not_decode r req resp (w : World S) credentials s1 s2
    postResponse getResponse err :
  let plan := (tfsdk.Get req).2 in
  let post := post_request (integrations_url (client r))
                (marshalled (Create_request plan credentials
                   (scopes_string (integrationCredentialModel.Scopes credentials)))) in
  let get := get_request (integration_url_full (client r)
               (types.ValueString (integrationModel.UniqueKey plan))) in
  HasError (Append (tfsdk.Diagnostics resp) (tfsdk.Get req).1) = false ->
  integrationModel.Credentials plan = Some credentials ->
  url_error (URL post) = None ->
  url_error (URL get) = None ->
  serve (remote w) post = (s1, inr postResponse) ->
  serve s1 get = (s2, inr getResponse) ->
  Decode_nanogoIntegrationResponse2 (Body getResponse) = inl err ->
  Create serve url_error r req resp w
  = Ok {| tfsdk.State := tfsdk.State resp;
          tfsdk.Diagnostics :=
            AddError (Append (tfsdk.Diagnostics resp) (tfsdk.Get req).1)
              "Unable to Decode JSON" err |}
       {| remote := s2; sent := sent w ++ [post; get]; now := now w |}.
Proof.
  destruct req as [[diags plan]]. simpl.
  intros Hplan Hcred Hu1 Hu2 Hpost Hget Hdec.
  unfold Create. simpl.
  unfold tfsdk.Diagnostics_Append at 1. simpl. rewrite Hplan.
  unfold bind. rewrite Hcred. simpl.
  unfold client_Post, NewRequest.
  fold (integrations_url (client r)). rewrite Hu1.
  unfold client_Do at 1.
  unfold post_request, marshalled in Hpost. simpl in Hpost.
  unfold Request_Header_Set, Header_Set. simpl. rewrite Hpost. simpl.
  unfold client_Get, NewRequest.
  fold (integration_url_full (client r)
          (types.ValueString (integrationModel.UniqueKey plan))).
  rewrite Hu2. unfold client_Do. simpl.
  unfold get_request in Hget. rewrite Hget. simpl. rewrite Hdec.
  unfold ret. rewrite <- app_assoc. reflexivity.
Qed.

(** When [Create] and [Update] panic, and that nothing else does. *)
Lemma Create_Panic_iff r req resp (w : World S) :
  Create serve url_error r req resp w = Panic
  <-> HasError (Append (tfsdk.Diagnostics resp) (tfsdk.Get req).1) = false
      /\ integrationModel.Credentials (tfsdk.Get req).2 = None.
Proof.
  destruct req as [[diags plan]]. simpl. unfold Create. simpl.
  unfold tfsdk.Diagnostics_Append at 1. simpl.
  destruct (HasError (Append (tfsdk.Diagnostics resp) diags)) eqn:Hplan.
  { split; [discriminate | intros [? _]; discriminate]. }
  unfold bind.
  destruct (integrationModel.Credentials plan) as [credentials|] eqn:Hcred; simpl.
  - split; [|intros [_ ?]; discriminate].
    intros Hrun. exfalso.
    unfold client_Post, client_Get, client_Do, ret in Hrun.
    run_cases Hrun; discriminate.
  - split; [by split | reflexivity].
Qed.

Lemma Update_Panic_iff r req resp (w : World S) :
  Update serve url_error r req resp w = Panic
  <-> HasError (Append (tfsdk.Diagnostics resp) (tfsdk.Get req).1) = false
      /\ integrationModel.Credentials (tfsdk.Get req).2 = None.
Proof.
  destruct req as [[diags plan]]. simpl. unfold Update. simpl.
  unfold tfsdk.Diagnostics_Append at 1. simpl.
  destruct (HasError (Append (tfsdk.Diagnostics resp) diags)) eqn:Hplan.
  { split; [discriminate | intros [? _]; discriminate]. }
  unfold bind.
  destruct (integrationModel.Credentials plan) as [credentials|] eqn:Hcred; simpl.
  - split; [|intros [_ ?]; discriminate].
    intros Hrun. exfalso.
    unfold client_Do, ret, time_Now in Hrun.
    run_cases Hrun; discriminate.
  - split; [by split | reflexivity].
Qed.

Lemma Read_never_panics r req resp (w : World S) :
  Read serve url_error r req resp w <> Panic.
Proof.
  destruct req as [[diags state]]. unfold Read. simpl.
  intros Hrun. unfold bind, client_Get, client_Do, ret in Hrun.
  run_cases Hrun; discriminate.
Qed.

Lemma DataSource_Read_never_panics d resp (w : World S) :
  DataSource_Read serve url_error d resp w <> Panic.
Proof.
  unfold DataSource_Read. intros Hrun.
  unfold bind, client_Get, client_Do, ret in Hrun.
  run_cases Hrun; discriminate.
Qed.

End Failures.

(** X10. An operation that ends with an error has set no state: the state of
    the response is the one it had on entry. (The data source does not test
    the diagnostics it is given, so this needs them free of errors.) *)
Theorem failed_operation_sets_no_state {S}
    (serve : S -> Request -> S * (string + Response)) url_error :
  (forall r req resp (w w' : World S) resp',
     Create serve url_error r req resp w = Ok resp' w' ->
     HasError (tfsdk.Diagnostics resp') = true ->
     tfsdk.State resp' = tfsdk.State resp)
  /\ (forall r req resp (w w' : World S) resp',
        Read serve url_error r req resp w = Ok resp' w' ->
        HasError (tfsdk.Diagnostics resp') = true ->
        tfsdk.State resp' = tfsdk.State resp)
  /\ (forall r req resp (w w' : World S) resp',
        Update serve url_error r req resp w = Ok resp' w' ->
        HasError (tfsdk.Diagnostics resp') = true ->
        tfsdk.State resp' = tfsdk.State resp)
  /\ (forall d resp (w w' : World S) resp',
        DataSource_Read serve url_error d resp w = Ok resp' w' ->
        HasError (tfsdk.Diagnostics resp) = false ->
        HasError (tfsdk.Diagnostics resp') = true ->
        tfsdk.State resp' = tfsdk.State resp).
Proof.
  split; [intros; by eapply Create_failure_keeps_state|].
  split; [intros; by eapply Read_failure_keeps_state|].
  split; [intros; by eapply Update_failure_keeps_state|].
  intros; by eapply DataSource_Read_failure_keeps_state.
Qed.

(** An update whose PATCH gets no answer: the state stays the prior one. *)
Lemma failed_operation_sets_no_state_witness :
  exists resp' w',
    Update scripted any_url nango (carrying gh1_plan)
      {| tfsdk.State := Some gh1_state; tfsdk.Diagnostics := [] |} (world0 []) = Ok resp' w'
    /\ HasError (tfsdk.Diagnostics resp') = true
    /\ tfsdk.State resp' = Some gh1_state.
Proof.
  assert (Hrun : Update scripted any_url nango (carrying gh1_plan)
                   {| tfsdk.State := Some gh1_state; tfsdk.Diagnostics := [] |} (world0 [])
                 = Ok {| tfsdk.State := Some gh1_state;
                         tfsdk.Diagnostics :=
                           [ {| severity := SeverityError;
                                Summary := "Unable to Update Integration";
                                Detail := "connection refused" |} ] |}
                      {| remote := [];
                         sent := [ patch_request "https://api.nango.dev/integrations/gh1"
                                     (marshalled
                                        (Update_request gh1_plan gh1_credentials "repo")) ];
                         now := "2024-05-01T12:00:00Z" |}).
  { vm_compute. reflexivity. }
  eexists _, _. split; [exact Hrun|]. split; [reflexivity|].
  exact (proj1 (proj2 (proj2 (failed_operation_sets_no_state scripted any_url)))
           _ _ _ _ _ _ Hrun eq_refl).
Defined.

(** X11. The requests of [Create], in every outcome: none, the POST alone, or
    the POST followed by the GET, and the GET only after the POST was
    answered without an error. *)
Theorem Create_sends_POST_then_GET_at_most {S}
    (serve : S -> Request -> S * (string + Response)) url_error
    r req resp (w w' : World S) resp' :
  Create serve url_error r req resp w = Ok resp' w' ->
  let plan := (tfsdk.Get req).2 in
  sent w' = sent w
  \/ exists credentials,
       let post := post_request (integrations_url (client r))
                     (marshalled (Create_request plan credentials
                        (scopes_string (integrationCredentialModel.Scopes credentials)))) in
       let get := get_request (integration_url_full (client r)
                    (types.ValueString (integrationModel.UniqueKey plan))) in
       integrationModel.Credentials plan = Some credentials
       /\ (sent w' = sent w ++ [post]
           \/ (sent w' = sent w ++ [post; get]
               /\ exists s1 postResponse, serve (remote w) post = (s1, inr postResponse))).
Proof. apply Create_sent. Qed.

(** The POST gets no answer: no GET follows. *)
Lemma Create_sends_POST_then_GET_at_most_witness :
  exists resp' w',
    Create scripted any_url nango (carrying gh1_plan) resp0 (world0 []) = Ok resp' w'
    /\ length (sent w') = 1.
Proof.
  assert (Hrun : Create scripted any_url nango (carrying gh1_plan) resp0 (world0 [])
                 = Ok {| tfsdk.State := None;
                         tfsdk.Diagnostics :=
                           [ {| severity := SeverityError;
                                Summary := "Unable to Create Integration";
                                Detail := "connection refused" |} ] |}
                      {| remote := [];
                         sent := [ post_request "https://api.nango.dev/integrations"
                                     (marshalled
                                        (Create_request gh1_plan gh1_credentials "repo")) ];
                         now := "2024-05-01T12:00:00Z" |}).
  { vm_compute. reflexivity. }
  eexists _, _. split; [exact Hrun|].
  destruct (Create_sends_POST_then_GET_at_most _ _ _ _ _ _ _ _ Hrun)
    as [Hnone|(credentials & Hcred & [Hpost|[Hboth _]])].
  - simpl in Hnone. discriminate Hnone.
  - reflexivity.
  - simpl in Hboth. discriminate Hboth.
Defined.

(** X12. When the POST of [Create] was answered and the GET fails, or its
    answer does not decode, both requests have reached the API, the state
    of the response is untouched and one error is added: the integration
    may exist remotely while Terraform records nothing. *)
Theorem Create_fails_after_POST {S}
    (serve : S -> Request -> S * (string + Response)) url_error
    r req resp (w : World S) credentials s1 postResponse :
  let plan := (tfsdk.Get req).2 in
  let post := post_request (integrations_url (client r))
                (marshalled (Create_request plan credentials
                   (scopes_string (integrationCredentialModel.Scopes credentials)))) in
  let get := get_request (integration_url_full (client r)
               (types.ValueString (integrationModel.UniqueKey plan))) in
  let base := Append (tfsdk.Diagnostics resp) (tfsdk.Get req).1 in
  HasError base = false ->
  integrationModel.Credentials plan = Some credentials ->
  url_error (URL post) = None ->
  url_error (URL get) = None ->
  serve (remote w) post = (s1, inr postResponse) ->
  (forall s2 gErr,
     serve s1 get = (s2, inl gErr) ->
     Create serve url_error r req resp w
     = Ok {| tfsdk.State := tfsdk.State resp;
             tfsdk.Diagnostics := AddError base "Unable to Get Integration" gErr |}
          {| remote := s2; sent := sent w ++ [post; get]; now := now w |})
  /\ (forall s2 getResponse err,
        serve s1 get = (s2, inr getResponse) ->
        Decode_nanogoIntegrationResponse2 (Body getResponse) = inl err ->
        Create serve url_error r req resp w
        = Ok {| tfsdk.State := tfsdk.State resp;
                tfsdk.Diagnostics := AddError base "Unable to Decode JSON" err |}
             {| remote := s2; sent := sent w ++ [post; get]; now := now w |}).
Proof.
  intros plan post get base Hplan Hcred Hu1 Hu2 Hpost. split.
  - intros s2 gErr Hget.
    exact (Create_GET_fails serve url_error r req resp w credentials s1 s2 postResponse gErr
             Hplan Hcred Hu1 Hu2 Hpost Hget).
  - intros s2 getResponse err Hget Hdec.
    exact (Create_GET_does_not_decode serve url_error r req resp w credentials s1 s2
             postResponse getResponse err Hplan Hcred Hu1 Hu2 Hpost Hget Hdec).
Qed.

(** The POST is answered, the connection is gone for the GET. *)
Lemma Create_fails_after_POST_witness :
  exists w',
    Create scripted any_url nango (carrying gh1_plan) resp0 (world0 [reply 200 JNull])
    = Ok {| tfsdk.State := None;
            tfsdk.Diagnostics := AddError [] "Unable to Get Integration" "connection refused" |}
         w'
    /\ length (sent w') = 2.
Proof.
  eexists. split.
  - exact (proj1 (Create_fails_after_POST scripted any_url nango (carrying gh1_plan) resp0
                    (world0 [reply 200 JNull]) gh1_credentials []
                    {| StatusCode := 200; Body := Some JNull |}
                    eq_refl eq_refl eq_refl eq_refl eq_refl)
             [] "connection refused" eq_refl).
  - reflexivity.
Defined.

(** X13. [Create] and [Update] read the credentials of the plan without a nil
    test: they panic exactly when the plan came without an error and
    without a credentials block. [Read], [Delete] and the read of the data
    source never panic, also on a state without credentials. *)
Theorem operations_panic_only_without_credentials {S}
    (serve : S -> Request -> S * (string + Response)) url_error
    r d req resp dresp (w : World S) :
  (Create serve url_error r req resp w = Panic
   <-> HasError (Append (tfsdk.Diagnostics resp) (tfsdk.Get req).1) = false
       /\ integrationModel.Credentials (tfsdk.Get req).2 = None)
  /\ (Update serve url_error r req resp w = Panic
      <-> HasError (Append (tfsdk.Diagnostics resp) (tfsdk.Get req).1) = false
          /\ integrationModel.Credentials (tfsdk.Get req).2 = None)
  /\ Read serve url_error r req resp w <> Panic
  /\ Delete r req resp w <> Panic
  /\ DataSource_Read serve url_error d dresp w <> Panic.
Proof.
  split; [apply Create_Panic_iff|]. split; [apply Update_Panic_iff|].
  split; [apply Read_never_panics|]. split; [discriminate|].
  apply DataSource_Read_never_panics.
Qed.

(** The plan of an imported integration that was given no credentials. *)
Lemma operations_panic_only_without_credentials_witness :
  Create scripted any_url nango
    (carrying {| integrationModel.UniqueKey := types.StringValue "gh1";
                 integrationModel.DisplayName := types.StringValue "GitHub";
                 integrationModel.NangoProvider := types.StringValue "github";
                 integrationModel.UpdatedAt := types.StringUnknown;
                 integrationModel.Credentials := None |})
    resp0 (world0 script_gh1) = Panic.
Proof.
  apply (proj1 (operations_panic_only_without_credentials scripted any_url nango nango_ds
                  _ resp0 resp0 (world0 script_gh1))).
  split; reflexivity.
Defined.

(* ===================================================================== *)
(** * Encoding and decoding *)
(* ===================================================================== *)

(** X14. The body [Create] marshals, decoded as the API's model of an
    integration, gives back [unique_key], [display_name] and [provider] of
    the plan as known strings (a null or unknown value reads as [""]); the
    credentials are dropped and [updated_at] is empty. The same holds inside
    the [data] envelope. *)
Theorem Decode_Marshal_round_trip (plan : integrationModel.t)
    (credentials : integrationCredentialModel.t) (scopesString : string) :
  let body := marshalled (Create_request plan credentials scopesString) in
  let model :=
    {| nangoIntegrationModel.UniqueKey :=
         types.ValueString (integrationModel.UniqueKey plan);
       nangoIntegrationModel.DisplayName :=
         types.ValueString (integrationModel.DisplayName plan);
       nangoIntegrationModel.NangoProvider :=
         types.ValueString (integrationModel.NangoProvider plan);
       nangoIntegrationModel.UpdatedAt := "" |} in
  Decode_nangoIntegrationModel (Some body) = inr model
  /\ Decode_nanogoIntegrationResponse2 (Some (JObject [("data", body)]))
     = inr {| nanogoIntegrationResponse2.Data := model |}.
Proof.
  unfold marshalled, Create_request. simpl.
  destruct (integrationModel.UniqueKey plan);
    destruct (integrationModel.NangoProvider plan); split; reflexivity.
Qed.

(* ===================================================================== *)
(** * Scopes with elements that are not known *)
(* ===================================================================== *)

(** X15. A list of known scopes goes out joined by commas; a list with one null
    or unknown element, like an unknown list, goes out as the empty string:
    the conversion fails as a whole and its diagnostics are dropped. *)
Theorem scopes_string_of_known_and_unknown :
  (forall ss : list string,
     scopes_string (types.ListValue (types.StringValue <$> ss)) = strings_Join ss ",")
  /\ (forall (elems : list types.String) (e : types.String),
        e ∈ elems ->
        e = types.StringNull \/ e = types.StringUnknown ->
        scopes_string (types.ListValue elems) = "")
  /\ scopes_string types.ListUnknown = "".
Proof.
  split; [|split; [|reflexivity]].
  - intros ss. unfold scopes_string, types.ElementsAs.
    rewrite mapM_fmap_Some; [reflexivity | done].
  - intros elems e Hin He. unfold scopes_string, types.ElementsAs.
    assert (Hnone : mapM types.known elems = None).
    { apply mapM_None. apply Exists_exists. exists e. split; [exact Hin|].
      destruct He as [-> | ->]; reflexivity. }
    by rewrite Hnone.
Qed.

Lemma scopes_string_of_known_and_unknown_witness :
  scopes_string (types.ListValue [types.StringValue "repo"; types.StringNull;
                                  types.StringValue "user"]) = "".
Proof.
  apply (proj1 (proj2 scopes_string_of_known_and_unknown) _ types.StringNull).
  - apply list_elem_of_In. simpl. right. left. reflexivity.
  - left. reflexivity.
Defined.

(* ===================================================================== *)
(** * Update, import and the operations in sequence *)
(* ===================================================================== *)

(** X16. After a successful [Update] the [unique_key], the [nango_provider] and
    the credentials of the state are the planned ones, whatever the answer
    holds, and the one request went to the URL of the planned [unique_key]. *)
Theorem Update_keeps_planned_identity {S}
    (serve : S -> Request -> S * (string + Response)) url_error
    r req resp (w w' : World S) resp' :
  succeeds (Update serve url_error r req resp) w resp' w' ->
  let plan := (tfsdk.Get req).2 in
  exists state body,
    tfsdk.State resp' = Some state
    /\ integrationModel.UniqueKey state = integrationModel.UniqueKey plan
    /\ integrationModel.NangoProvider state = integrationModel.NangoProvider plan
    /\ integrationModel.Credentials state = integrationModel.Credentials plan
    /\ sent w'
       = sent w
         ++ [ patch_request
                (baseURL (client r) +:+ "/integrations/"
                 +:+ types.ValueString (integrationModel.UniqueKey plan)) body ].
Proof.
  intros Hok. apply Update_success_inv in Hok. simpl in Hok.
  destruct Hok as (credentials & body & response & integration
                   & _ & _ & _ & _ & Hsent & _ & ->).
  simpl. eexists _, body. repeat split; try reflexivity. exact Hsent.
Qed.

(** The API answers the update with another key and provider: the state
    keeps the planned ones. *)
Lemma Update_keeps_planned_identity_witness :
  exists resp' w' state,
    succeeds (Update scripted any_url nango (carrying gh1_plan) resp0)
      (world0 script_drift) resp' w'
    /\ tfsdk.State resp' = Some state
    /\ integrationModel.NangoProvider state = types.StringValue "github".
Proof.
  assert (Hok : succeeds (Update scripted any_url nango (carrying gh1_plan) resp0)
                  (world0 script_drift)
                  {| tfsdk.State :=
                       Some {| integrationModel.UniqueKey := types.StringValue "gh1";
                               integrationModel.DisplayName :=
                                 types.StringValue "GitHub Enterprise";
                               integrationModel.NangoProvider := types.StringValue "github";
                               integrationModel.UpdatedAt :=
                                 types.StringValue "2024-06-01T00:00:00Z";
                               integrationModel.Credentials := Some gh1_credentials |};
                     tfsdk.Diagnostics := [] |}
                  {| remote := [];
                     sent := [ patch_request "https://api.nango.dev/integrations/gh1"
                                 (marshalled (Update_request gh1_plan gh1_credentials "repo")) ];
                     now := "2024-05-01T12:00:00Z" |}).
  { split; vm_compute; reflexivity. }
  destruct (Update_keeps_planned_identity _ _ _ _ _ _ _ _ Hok)
    as (state & body & Hstate & Hkey & Hprov & Hcred & Hsent).
  eexists _, _, state. split; [exact Hok|]. split; [exact Hstate|]. exact Hprov.
Defined.

(** X17. An import into an empty state leaves a state with the [unique_key] of
    the import and every other attribute null, without credentials. The
    [Read] that follows asks for [{baseURL}/integrations/{id}] and, when it
    succeeds, writes that same state back. *)
Theorem ImportState_then_Read {S}
    (serve : S -> Request -> S * (string + Response)) url_error
    r (id : string) (diags : diag_Diagnostics) state (w w' : World S) resp' :
  let imported := ImportState id {| tfsdk.State := None; tfsdk.Diagnostics := diags |} in
  tfsdk.State imported = Some state ->
  succeeds (Read serve url_error r (carrying state) imported) w resp' w' ->
  state = {| integrationModel.UniqueKey := types.StringValue id;
             integrationModel.DisplayName := types.StringNull;
             integrationModel.NangoProvider := types.StringNull;
             integrationModel.UpdatedAt := types.StringNull;
             integrationModel.Credentials := None |}
  /\ tfsdk.Diagnostics imported = diags
  /\ sent w' = sent w ++ [get_request (baseURL (client r) +:+ "/integrations/" +:+ id)]
  /\ tfsdk.State resp' = Some state.
Proof.
  simpl. intros Himp Hok.
  unfold ImportState in Himp. simpl in Himp. inversion Himp; subst state; clear Himp.
  apply Read_success_inv in Hok. simpl in Hok.
  destruct Hok as (integrationResponse & integrations & _ & _ & Hsent & _ & ->).
  repeat split; try reflexivity. exact Hsent.
Qed.

Lemma ImportState_then_Read_witness :
  exists resp' w' state,
    succeeds (Read scripted any_url nango (carrying state) (ImportState "gh1" resp0))
      (world0 script_drift) resp' w'
    /\ tfsdk.State resp' = Some state
    /\ integrationModel.DisplayName state = types.StringNull.
Proof.
  set (state := {| integrationModel.UniqueKey := types.StringValue "gh1";
                   integrationModel.DisplayName := types.StringNull;
                   integrationModel.NangoProvider := types.StringNull;
                   integrationModel.UpdatedAt := types.StringNull;
                   integrationModel.Credentials := None |}).
  assert (Hok : succeeds (Read scripted any_url nango (carrying state) (ImportState "gh1" resp0))
                  (world0 script_drift)
                  {| tfsdk.State := Some state; tfsdk.Diagnostics := [] |}
                  {| remote := [];
                     sent := [get_request "https://api.nango.dev/integrations/gh1"];
                     now := "2024-05-01T12:00:00Z" |}).
  { split; vm_compute; reflexivity. }
  destruct (ImportState_then_Read scripted any_url nango "gh1" [] state _ _ _ eq_refl Hok)
    as (Hstate & Hdiags & Hsent & Hread).
  eexists _, _, state. split; [exact Hok|]. split; [exact Hread|]. reflexivity.
Defined.

(** X18. From the configuration to the wire: when the configured host is [base]
    followed by any number of slashes, the resource configured with the
    client of the provider sends the POST of a successful [Create] to
    [base/integrations] and the GET to [base/integrations/{unique_key}?...]:
    the slashes do not show. *)
Theorem Configure_then_Create_URLs {S}
    (serve : S -> Request -> S * (string + Response)) url_error
    getenv creq ds nc (base : string) (k : nat) req resp (w w' : World S) resp' :
  ResourceData (Provider_Configure getenv creq (Configure_resp0 ds)) = Some nc ->
  nangoProviderMdoel.Host (tfsdk.Get creq).2 = types.StringValue (base +:+ slashes k) ->
  base <> "" ->
  (forall p, base <> p +:+ "/") ->
  exists r,
    Resource_Configure None (ProviderData_nangoClient nc) [] = (Some r, [])
    /\ (succeeds (Create serve url_error r req resp) w resp' w' ->
        exists body,
          sent w'
          = sent w
            ++ [ post_request (base +:+ "/integrations") body;
                 get_request
                   (base +:+ "/integrations/"
                    +:+ types.ValueString (integrationModel.UniqueKey (tfsdk.Get req).2)
                    +:+ "?include=webhook&include=credentials") ]).
Proof.
  intros Hnc Hhost Hne Hbase.
  destruct (Provider_Configure_cases getenv creq ds)
    as [(_ & _ & Hr)|(_ & _ & _ & _ & _ & Hr)]; [congruence|].
  rewrite Hr in Hnc. inversion Hnc; subst nc; clear Hnc Hr.
  assert (Hurl : Configure_host getenv (tfsdk.Get creq).2 = base).
  { unfold Configure_host. rewrite Hhost.
    change (negb (String_IsNull (types.StringValue (base +:+ slashes k)))
            && negb (String_IsUnknown (types.StringValue (base +:+ slashes k)))) with true.
    cbn [types.ValueString].
    destruct (decide (base +:+ slashes k = "")) as [Heq|_].
    - destruct base; [done | discriminate Heq].
    - by apply TrimRight_slash_append. }
  eexists. split; [reflexivity|].
  intros Hok. apply Create_success_inv in Hok. simpl in Hok.
  destruct Hok as (credentials & body & s1 & postResponse & getResponse & integration
                   & _ & _ & _ & _ & _ & Hsent & _ & _).
  exists body. rewrite Hsent.
  unfold integrations_url, integration_url_full. simpl. by rewrite Hurl.
Qed.

Lemma Configure_then_Create_URLs_witness :
  exists r resp' w' body,
    Resource_Configure None
      (ProviderData_nangoClient
         {| retryClient :=
              {| RetryMax := 3; RetryWaitMin := 1; RetryWaitMax := 5; HTTPClient_Timeout := 30;
                 HTTPClient_Transport := {| authKey := "secret" |} |};
            handle := {| baseURL := "https://nango.example.com" |} |}) []
    = (Some r, [])
    /\ succeeds (Create scripted any_url r (carrying gh1_plan) resp0) (world0 script_gh1) resp' w'
    /\ sent w'
       = [ post_request "https://nango.example.com/integrations" body;
           get_request
             "https://nango.example.com/integrations/gh1?include=webhook&include=credentials" ].
Proof.
  assert (Hne : forall p, "https://nango.example.com" <> p +:+ "/").
  { intros p Hp.
    apply (TrimRight_slash_no_trailing "https://nango.example.com" p).
    rewrite <- Hp. reflexivity. }
  destruct (Configure_then_Create_URLs scripted any_url no_env (carrying hosted_config) []
              _ "https://nango.example.com" 2 (carrying gh1_plan) resp0
              (world0 script_gh1)
              {| remote := [];
                 sent := [ post_request "https://nango.example.com/integrations"
                             (marshalled (Create_request gh1_plan gh1_credentials "repo"));
                           get_request
                             "https://nango.example.com/integrations/gh1?include=webhook&include=credentials" ];
                 now := "2024-05-01T12:00:00Z" |}
              {| tfsdk.State := Some gh1_state; tfsdk.Diagnostics := [] |}
              eq_refl eq_refl ltac:(discriminate) Hne)
    as (r & Hconf & Hcreate).
  inversion Hconf; subst r.
  assert (Hok : succeeds (Create scripted any_url
                            {| client := {| baseURL := "https://nango.example.com" |} |}
                            (carrying gh1_plan) resp0) (world0 script_gh1)
                  {| tfsdk.State := Some gh1_state; tfsdk.Diagnostics := [] |}
                  {| remote := [];
                     sent := [ post_request "https://nango.example.com/integrations"
                                 (marshalled (Create_request gh1_plan gh1_credentials "repo"));
                               get_request
                                 "https://nango.example.com/integrations/gh1?include=webhook&include=credentials" ];
                     now := "2024-05-01T12:00:00Z" |}).
  { split; vm_compute; reflexivity. }
  destruct (Hcreate Hok) as (body & Hsent).
  eexists _, _, _, body. split; [reflexivity|]. split; [exact Hok|]. exact Hsent.
Defined.

(** X19. [Create] and then [Read]: the [Read] asks for the integration under
    the [unique_key] the API returned to [Create], which is the one in the
    state, and writes the state of [Create] back. *)
Theorem Create_then_Read {S}
    (serve : S -> Request -> S * (string + Response)) url_error
    r req resp (w w1 w2 : World S) resp1 resp2 state :
  succeeds (Create serve url_error r req resp) w resp1 w1 ->
  tfsdk.State resp1 = Some state ->
  succeeds (Read serve url_error r (carrying state) resp1) w1 resp2 w2 ->
  exists unique_key post get,
    integrationModel.UniqueKey state = types.StringValue unique_key
    /\ sent w2
       = sent w ++ [ post; get;
                     get_request (baseURL (client r) +:+ "/integrations/" +:+ unique_key) ]
    /\ tfsdk.State resp2 = Some state.
Proof.
  intros Hcreate Hstate Hread.
  apply Create_success_inv in Hcreate. simpl in Hcreate.
  destruct Hcreate as (credentials & body & s1 & postResponse & getResponse & integration
                       & _ & _ & _ & _ & _ & Hsent1 & _ & ->).
  simpl in Hstate. inversion Hstate; subst state; clear Hstate.
  apply Read_success_inv in Hread. simpl in Hread.
  destruct Hread as (integrationResponse & integrations & _ & _ & Hsent2 & _ & ->).
  eexists _, _, _. split; [reflexivity|]. split; [|reflexivity].
  rewrite Hsent2, Hsent1, <- app_assoc. reflexivity.
Qed.

Lemma Create_then_Read_witness :
  exists resp2 w2,
    succeeds (Read scripted any_url nango (carrying gh1_state)
                {| tfsdk.State := Some gh1_state; tfsdk.Diagnostics := [] |})
      {| remote := script_drift;
         sent := [ post_request "https://api.nango.dev/integrations"
                     (marshalled (Create_request gh1_plan gh1_credentials "repo"));
                   get_request
                     "https://api.nango.dev/integrations/gh1?include=webhook&include=credentials" ];
         now := "2024-05-01T12:00:00Z" |} resp2 w2
    /\ length (sent w2) = 3
    /\ tfsdk.State resp2 = Some gh1_state.
Proof.
  assert (Hcreate : succeeds (Create scripted any_url nango (carrying gh1_plan) resp0)
                      (world0 (script_gh1 ++ script_drift))
                      {| tfsdk.State := Some gh1_state; tfsdk.Diagnostics := [] |}
                      {| remote := script_drift;
                         sent := [ post_request "https://api.nango.dev/integrations"
                                     (marshalled
                                        (Create_request gh1_plan gh1_credentials "repo"));
                                   get_request
                                     "https://api.nango.dev/integrations/gh1?include=webhook&include=credentials" ];
                         now := "2024-05-01T12:00:00Z" |}).
  { split; vm_compute; reflexivity. }
  assert (Hread : succeeds (Read scripted any_url nango (carrying gh1_state)
                              {| tfsdk.State := Some gh1_state; tfsdk.Diagnostics := [] |})
                    {| remote := script_drift;
                       sent := [ post_request "https://api.nango.dev/integrations"
                                   (marshalled
                                      (Create_request gh1_plan gh1_credentials "repo"));
                                 get_request
                                   "https://api.nango.dev/integrations/gh1?include=webhook&include=credentials" ];
                       now := "2024-05-01T12:00:00Z" |}
                    {| tfsdk.State := Some gh1_state; tfsdk.Diagnostics := [] |}
                    {| remote := [];
                       sent := [ post_request "https://api.nango.dev/integrations"
                                   (marshalled
                                      (Create_request gh1_plan gh1_credentials "repo"));
                                 get_request
                                   "https://api.nango.dev/integrations/gh1?include=webhook&include=credentials";
                                 get_request "https://api.nango.dev/integrations/gh1" ];
                       now := "2024-05-01T12:00:00Z" |}).
  { split; vm_compute; reflexivity. }
  destruct (Create_then_Read _ _ _ _ _ _ _ _ _ _ _ Hcreate eq_refl Hread)
    as (unique_key & post & get & Hkey & Hsent & Hstate).
  eexists _, _. split; [exact Hread|]. split; [reflexivity | exact Hstate].
Defined.
